(** * slidepy: a shallow embedding of the slide generator and its CLI

    The embedding follows the three modules of the package:
    - [slidepy/slides.py]: [Slide.from_dict] and the five slide variants;
    - [slidepy/app.py]: [App.generate], the driver loop and its error
      handling;
    - [slidepy/cli.py]: the [command] / [default_command] decorators and the
      [CommandlineInterface] constructor.

    Python objects are modelled as they behave at run time: JSON values as
    [pyval], dictionaries as objects in a heap (so that [dict.pop] is seen by
    the caller), exceptions as [exn], and the methods as functions in a
    state-and-exception monad [M] whose state holds the heap, the slides of
    the presentation and matplotlib's module-global current figure.  The
    external collaborators (python-pptx, numpy.loadtxt, matplotlib,
    typeguard, argparse, docstring_parser) are modelled by the part of their
    behaviour that the code relies on. *)

From Stdlib Require Import ZArith String Ascii.
From stdpp Require Import base gmap strings list.

Set Warnings "-register-all".
Local Open Scope string_scope.
Local Open Scope list_scope.

(* ------------------------------------------------------------------ *)
(** ** Strings *)

(** The double-quote character, used by the f-strings of the source. *)
Definition dq : string := String (ascii_of_nat 34) EmptyString.

(** The empty Python string [''].  *)
Definition empty_str : string := EmptyString.

Fixpoint digits_go (fuel : nat) (n : N) (acc : string) : string :=
  match fuel with
  | O => acc
  | S f =>
      let acc' := String (ascii_of_N (48 + N.modulo n 10)) acc in
      if (N.div n 10 =? 0)%N then acc' else digits_go f (N.div n 10) acc'
  end.

(** Decimal rendering, as Python's [str] of an [int]. *)
Definition N_dec (n : N) : string := digits_go (S (N.to_nat (N.log2 n))) n EmptyString.
Definition nat_dec (n : nat) : string := N_dec (N.of_nat n).
Definition Z_dec (z : Z) : string :=
  if (z <? 0)%Z then "-" +:+ N_dec (Z.to_N (- z)) else N_dec (Z.to_N z).

Fixpoint join (sep : string) (xs : list string) : string :=
  match xs with
  | [] => EmptyString
  | [x] => x
  | x :: xs' => x +:+ sep +:+ join sep xs'
  end.

(* ------------------------------------------------------------------ *)
(** ** Python values, dictionaries and the heap *)

Definition loc := nat.

(** Values produced by [json.load]: JSON objects are [dict] objects living
    in the heap and are referred to by [PRef]. *)
Inductive pyval :=
| PNone
| PBool (b : bool)
| PInt (z : Z)
| PStr (s : string)
| PList (xs : list pyval)
| PRef (r : loc).

(** A [dict] with string keys, in insertion order. *)
Abbreviation pydict := (list (string * pyval)).

Abbreviation heap := (gmap loc pydict).

Fixpoint dict_get (k : string) (d : pydict) : option pyval :=
  match d with
  | [] => None
  | (k', v) :: d' => if String.eqb k k' then Some v else dict_get k d'
  end.

Fixpoint dict_remove (k : string) (d : pydict) : pydict :=
  match d with
  | [] => []
  | (k', v) :: d' => if String.eqb k k' then d' else (k', v) :: dict_remove k d'
  end.

Definition dict_keys (d : pydict) : list string := map fst d.

(** Python's [type(v).__name__]. *)
Definition type_name (v : pyval) : string :=
  match v with
  | PNone => "NoneType" | PBool _ => "bool" | PInt _ => "int"
  | PStr _ => "str" | PList _ => "list" | PRef _ => "dict"
  end.

(** typeguard's [qualified_name(v)] for the values JSON gives: the name of
    the value's type, and [None] for [None]. *)
Definition qualified_name (v : pyval) : string :=
  match v with PNone => "None" | _ => type_name v end.

Definition hex_digit (n : nat) : ascii := ascii_of_nat (if Nat.ltb n 10 then 48 + n else 87 + n)%nat.

(** The characters [str.isprintable] accepts among the code points below
    256: the ASCII ones from the space to the tilde, and those from U+00A1
    on but the soft hyphen U+00AD. *)
Definition printable_code (n : nat) : bool :=
  (Nat.leb 32 n && Nat.ltb n 127) || (Nat.leb 161 n && negb (Nat.eqb n 173)).

(** One character of [repr(s)] for the quote [q]. *)
Definition repr_char (q c : ascii) : string :=
  let n := nat_of_ascii c in
  let bs := ascii_of_nat 92 in
  if Ascii.eqb c q || Nat.eqb n 92 then String bs (String c EmptyString)
  else if Nat.eqb n 9 then String bs "t"
  else if Nat.eqb n 10 then String bs "n"
  else if Nat.eqb n 13 then String bs "r"
  else if printable_code n then String c EmptyString
  else String bs (String "x" (String (hex_digit (Nat.div n 16)) (String (hex_digit (Nat.modulo n 16)) EmptyString))).

(** Python's [repr] of a [str] (a string of the model holds the code
    points below 256): single quotes, or double quotes when the string
    holds a single quote and no double quote; the quote, the backslash,
    tab, newline, carriage return and the other unprintable characters are
    escaped. *)
Definition py_str_repr (s : string) : string :=
  let cs := list_ascii_of_string s in
  let q := if existsb (Ascii.eqb "'"%char) cs && negb (existsb (Ascii.eqb (ascii_of_nat 34)) cs)
           then ascii_of_nat 34 else "'"%char in
  String q (fold_right String.append (String q EmptyString) (map (repr_char q) cs)).

Fixpoint pyval_weight (v : pyval) : nat :=
  match v with
  | PList xs => S (list_sum (map pyval_weight xs))
  | _ => 1
  end.

Definition dict_weight (d : pydict) : nat := list_sum (map (fun kv => S (pyval_weight kv.2)) d).

(** Enough fuel to print any value of an acyclic heap (the heaps built by
    [json.load] are acyclic). *)
Definition repr_fuel (h : heap) (v : pyval) : nat :=
  S (map_fold (fun _ d acc => acc + S (dict_weight d)) 0 h + pyval_weight v).

(** Python's [repr] (with [str] of a [str] being the string itself). *)
Fixpoint py_repr (fuel : nat) (h : heap) (v : pyval) {struct fuel} : string :=
  match fuel with
  | O => "..."
  | S f =>
      match v with
      | PNone => "None"
      | PBool true => "True"
      | PBool false => "False"
      | PInt z => Z_dec z
      | PStr s => py_str_repr s
      | PList xs => "[" +:+ join ", " (map (py_repr f h) xs) +:+ "]"
      | PRef r =>
          match h !! r with
          | Some d =>
              "{" +:+ join ", " (map (fun kv => py_str_repr kv.1 +:+ ": " +:+ py_repr f h kv.2) d)
                  +:+ "}"
          | None => "{}"
          end
      end
  end.

(** Python's [str(v)]. *)
Definition py_str (h : heap) (v : pyval) : string :=
  match v with
  | PStr s => s
  | _ => py_repr (repr_fuel h v) h v
  end.

(* ------------------------------------------------------------------ *)
(** ** Exceptions *)

(** The exception classes that can reach [App.generate].  [JSONDecodeError]
    and [UnicodeDecodeError] are subclasses of [ValueError];
    [TypeCheckError] is typeguard's. *)
Inductive exn :=
| TypeCheckError (msg : string)
| ValueError (msg : string)
| JSONDecodeError (msg : string)
| UnicodeDecodeError (msg : string)
| KeyError (key : string)
| OSError (msg : string)
| TypeError (msg : string)
| IndexError (msg : string)
| AttributeError (msg : string)
| ArgumentError (msg : string).

(** [str(e)]; a [KeyError] prints the repr of its key. *)
Definition exn_str (e : exn) : string :=
  match e with
  | KeyError k => "'" +:+ k +:+ "'"
  | TypeCheckError m | ValueError m | JSONDecodeError m | UnicodeDecodeError m
  | OSError m | TypeError m | IndexError m | AttributeError m | ArgumentError m => m
  end.

Definition is_value_error (e : exn) : bool :=
  match e with
  | ValueError _ | JSONDecodeError _ | UnicodeDecodeError _ => true
  | _ => false
  end.

(* ------------------------------------------------------------------ *)
(** ** The presentation (python-pptx) and the current figure (pyplot) *)

(** A paragraph of a text frame; [p.text] and [p.level] hold the values
    assigned to them (python-pptx's default level is 0). *)
Record paragraph := { p_text : pyval; p_level : pyval }.

Definition empty_paragraph : paragraph := {| p_text := PStr empty_str; p_level := PInt 0 |}.

(** A text frame either had its whole text assigned ([tf.text = v]) or is
    a sequence of paragraphs.  A placeholder cloned from a layout, like a
    fresh text box, holds one empty paragraph. *)
Inductive text_frame :=
| FrameText (v : pyval)
| FrameParas (ps : list paragraph).

(** pyplot's current figure: the plotted (x, y) series and the axis labels. *)
Record figure := {
  fig_lines : list (list Z * list Z);
  fig_xlabel : option pyval;
  fig_ylabel : option pyval
}.

Definition empty_figure : figure := {| fig_lines := []; fig_xlabel := None; fig_ylabel := None |}.

(** An embedded picture: an image file, or the PNG that [plt.savefig]
    rendered from a figure. *)
Inductive image :=
| ImageFile (path : string)
| ImageChart (fig : figure).

(** Shapes added to a slide; positions and sizes in EMU. *)
Inductive shape :=
| Placeholder (idx : nat) (tf : text_frame)
| TextBox (left top width height : Z) (tf : text_frame)
| Picture (left top height : Z) (img : image).

Record slide := { sl_layout : nat; sl_title : pyval; sl_shapes : list shape }.

(** [pptx.util.Inches]. *)
Definition Inches (n : Z) : Z := (n * 914400)%Z.

(** The placeholders python-pptx clones from a layout of the default
    template: layout 0 (Title Slide) has a subtitle placeholder, layout 1
    (Title and Content) a body placeholder, both with index 1; layout 5
    (Title Only) has none besides the title. *)
Definition layout_placeholders (layout : nat) : list shape :=
  match layout with
  | 0 | 1 => [Placeholder 1 (FrameParas [empty_paragraph])]
  | _ => []
  end.

(** [presentation.slides.add_slide(presentation.slide_layouts[layout])]. *)
Definition new_slide (layout : nat) : slide :=
  {| sl_layout := layout; sl_title := PStr empty_str; sl_shapes := layout_placeholders layout |}.

(* ------------------------------------------------------------------ *)
(** ** The state-and-exception monad *)

Record state := { st_heap : heap; st_slides : list slide; st_fig : figure }.

Definition M (A : Type) : Type := state -> state * (exn + A).

Global Instance M_ret : MRet M := fun A a s => (s, inr a).
Global Instance M_bind : MBind M := fun A B k m s =>
  match m s with
  | (s', inl e) => (s', inl e)
  | (s', inr a) => k a s'
  end.
Global Instance M_throw : MThrow exn M := fun A e s => (s, inl e).

Definition gets {A} (f : state -> A) : M A := fun s => (s, inr (f s)).
Definition modify (f : state -> state) : M unit := fun s => (f s, inr tt).

Definition set_heap (h : heap) (s : state) : state :=
  {| st_heap := h; st_slides := st_slides s; st_fig := st_fig s |}.
Definition set_slides (ss : list slide) (s : state) : state :=
  {| st_heap := st_heap s; st_slides := ss; st_fig := st_fig s |}.
Definition set_fig (g : figure) (s : state) : state :=
  {| st_heap := st_heap s; st_slides := st_slides s; st_fig := g |}.

(** Raise the first error of a list of checks, if any. *)
Definition raise_first (es : list (option exn)) : M unit :=
  match omap id es with
  | [] => mret tt
  | e :: _ => mthrow e
  end.

(** [v[k]] for a string key [k]. *)
Definition subscript (v : pyval) (k : string) : M pyval :=
  match v with
  | PRef r =>
      h ← gets st_heap;
      match h !! r ≫= dict_get k with
      | Some x => mret x
      | None => mthrow (KeyError k)
      end
  | PList _ => mthrow (TypeError "list indices must be integers or slices, not str")
  | PStr _ => mthrow (TypeError "string indices must be integers, not 'str'")
  | _ => mthrow (TypeError ("'" +:+ type_name v +:+ "' object is not subscriptable"))
  end.

(** Operations on the slide at index [i]. *)
Definition alter_slide (i : nat) (f : slide -> slide) : M unit :=
  modify (fun s => set_slides (alter f i (st_slides s)) s).

Definition add_slide (layout : nat) : M nat :=
  i ← gets (fun s => length (st_slides s));
  modify (fun s => set_slides (st_slides s ++ [new_slide layout]) s);;
  mret i.

Definition with_title (t : pyval) (sl : slide) : slide :=
  {| sl_layout := sl_layout sl; sl_title := t; sl_shapes := sl_shapes sl |}.
Definition with_shapes (f : list shape -> list shape) (sl : slide) : slide :=
  {| sl_layout := sl_layout sl; sl_title := sl_title sl; sl_shapes := f (sl_shapes sl) |}.

(** [slide.shapes.title.text = t]. *)
Definition set_title (i : nat) (t : pyval) : M unit := alter_slide i (with_title t).

(** [slide.shapes.add_...(...)]. *)
Definition add_shape (i : nat) (sh : shape) : M unit :=
  alter_slide i (with_shapes (fun shs => shs ++ [sh])).

(** Apply [f] to the text frame of placeholder [idx]. *)
Definition on_placeholder (idx : nat) (f : text_frame -> text_frame) (sh : shape) : shape :=
  match sh with
  | Placeholder j tf => if Nat.eqb j idx then Placeholder j (f tf) else sh
  | _ => sh
  end.

(** [slide.placeholders[idx].text = v]. *)
Definition set_placeholder_text (i idx : nat) (v : pyval) : M unit :=
  alter_slide i (with_shapes (map (on_placeholder idx (fun _ => FrameText v)))).

Definition frame_add_paragraph (tf : text_frame) : text_frame :=
  match tf with
  | FrameParas ps => FrameParas (ps ++ [empty_paragraph])
  | FrameText v => FrameParas [{| p_text := v; p_level := PInt 0 |}; empty_paragraph]
  end.

Definition frame_alter_last (f : paragraph -> paragraph) (tf : text_frame) : text_frame :=
  match tf with
  | FrameParas ps => FrameParas (alter f (pred (length ps)) ps)
  | FrameText v => FrameText v
  end.

(** [p = tf.add_paragraph()] on the text frame of placeholder [idx]. *)
Definition add_paragraph (i idx : nat) : M unit :=
  alter_slide i (with_shapes (map (on_placeholder idx frame_add_paragraph))).

(** Editing the paragraph just added. *)
Definition set_last_paragraph (i idx : nat) (f : paragraph -> paragraph) : M unit :=
  alter_slide i (with_shapes (map (on_placeholder idx (frame_alter_last f)))).

(** [p.text = v]: python-pptx splits the text at its line breaks, which
    raises [TypeError] for a value that is not a string. *)
Definition set_paragraph_text (i idx : nat) (v : pyval) : M unit :=
  match v with
  | PStr _ => set_last_paragraph i idx (fun p => {| p_text := v; p_level := p_level p |})
  | _ => mthrow (TypeError ("expected string or bytes-like object, got '" +:+ type_name v +:+ "'"))
  end.

(** [p.level = v]: [lvl] is an optional attribute of default 0 (a value
    equal to 0 removes it) of type [ST_TextIndentLevelType], which takes an
    integral value (a [bool] is one) from 0 to 8 inclusive. *)
Definition set_paragraph_level (i idx : nat) (v : pyval) : M unit :=
  let set l := set_last_paragraph i idx (fun p => {| p_text := p_text p; p_level := l |}) in
  match v with
  | PInt z =>
      if Z.leb 0 z && Z.leb z 8 then set v
      else mthrow (ValueError ("value must be in range 0 to 8 inclusive, got " +:+ Z_dec z))
  | PBool false => set (PInt 0)
  | PBool true => set v
  | _ => mthrow (TypeError ("value must be an integral type, got <class '" +:+ type_name v +:+ "'>"))
  end.

(* ------------------------------------------------------------------ *)
(** ** Files *)

(** A cell of a semicolon-separated data file. *)
Inductive cell := CNum (z : Z) | CJunk (s : string).

(** What a path of the file system holds. *)
Inductive file :=
| FJson (h : heap) (root : pyval)     (** a JSON document, as [json.load] returns it *)
| FTable (rows : list (list cell))    (** semicolon-separated text lines *)
| FImage                              (** a raster image *)
| FText (s : string).                 (** any other text *)

(** The result of [np.loadtxt]: mono-dimensional axes are squeezed, so a
    table is two-dimensional only with at least two rows and two columns. *)
Inductive ndarray :=
| A0 (z : Z)
| A1 (xs : list Z)
| A2 (rows : list (list Z)).

Fixpoint cells_to_Z (cs : list cell) : exn + list Z :=
  match cs with
  | [] => inr []
  | CNum z :: cs' => match cells_to_Z cs' with inl e => inl e | inr zs => inr (z :: zs) end
  | CJunk s :: _ => inl (ValueError ("could not convert string '" +:+ s +:+ "' to float64"))
  end.

(** Row by row; every row must have the width of the first one. *)
Fixpoint rows_to_Z (width : nat) (rows : list (list cell)) : exn + list (list Z) :=
  match rows with
  | [] => inr []
  | r :: rows' =>
      match cells_to_Z r with
      | inl e => inl e
      | inr zs =>
          if Nat.eqb (length zs) width then
            match rows_to_Z width rows' with inl e => inl e | inr zss => inr (zs :: zss) end
          else inl (ValueError "the number of columns changed")
      end
  end.

Definition table_to_array (rows : list (list cell)) : exn + ndarray :=
  match List.filter (fun r => negb (Nat.eqb (length r) 0)) rows with
  | [] => inr (A1 [])
  | (r0 :: _) as rows' =>
      match rows_to_Z (length r0) rows' with
      | inl e => inl e
      | inr zss =>
          match zss with
          | [[z]] => inr (A0 z)
          | [zs] => inr (A1 zs)
          | _ => if Nat.eqb (length r0) 1 then inr (A1 (map (fun zs => hd 0%Z zs) zss))
                 else inr (A2 zss)
          end
      end
  end.

(** [data[:, j]]. *)
Definition column (a : ndarray) (j : nat) : exn + list Z :=
  match a with
  | A2 rows => inr (map (fun zs => nth j zs 0%Z) rows)
  | A1 _ => inl (IndexError "too many indices for array: array is 1-dimensional, but 2 were indexed")
  | A0 _ => inl (IndexError "too many indices for array: array is 0-dimensional, but 2 were indexed")
  end.

(* ------------------------------------------------------------------ *)
(** ** typeguard *)

Definition is_dict (h : heap) (v : pyval) : bool :=
  match v with
  | PRef r => match h !! r with Some _ => true | None => false end
  | _ => false
  end.

Definition argument (name : string) : string := "argument " +:+ dq +:+ name +:+ dq.

(** [@typechecked] on a parameter annotated [str]. *)
Definition check_str (name : string) (v : pyval) : option exn :=
  match v with
  | PStr _ => None
  | _ => Some (TypeCheckError (argument name +:+ " (" +:+ qualified_name v +:+ ") is not an instance of str"))
  end.

(** [@typechecked] on a parameter annotated [dict]. *)
Definition check_dict (h : heap) (name : string) (v : pyval) : option exn :=
  if is_dict h v then None
  else Some (TypeCheckError (argument name +:+ " (" +:+ qualified_name v +:+ ") is not a dict")).

(** [int] accepts [bool], a subclass of it. *)
Definition is_int (v : pyval) : bool :=
  match v with PInt _ | PBool _ => true | _ => false end.
Definition is_str (v : pyval) : bool :=
  match v with PStr _ => true | _ => false end.

(** A [TypedDict] check: no extra keys, no missing keys, then each value. *)
Definition check_typed_dict (h : heap) (fields : list (string * (pyval -> bool))) (v : pyval)
  : option string :=
  match v with
  | PRef r =>
      match h !! r with
      | None => Some "is not a dict"
      | Some d =>
          let declared := map fst fields in
          let extra := List.filter (fun k => negb (existsb (String.eqb k) declared)) (dict_keys d) in
          let missing := List.filter (fun k => negb (existsb (String.eqb k) (dict_keys d))) declared in
          match extra, missing with
          | k :: _, _ => Some ("has unexpected extra key(s): " +:+ dq +:+ k +:+ dq)
          | [], k :: _ => Some ("is missing required key(s): " +:+ dq +:+ k +:+ dq)
          | [], [] =>
              match List.filter (fun '(k, ok) => match dict_get k d with
                                            | Some x => negb (ok x) | None => false end) fields with
              | [] => None
              | (k, _) :: _ => Some ("value of key '" +:+ k +:+ "' has the wrong type")
              end
          end
      end
  | _ => Some "is not a dict"
  end.

Definition ListElements : list (string * (pyval -> bool)) := [("level", is_int); ("text", is_str)].

(** typeguard's default collection check strategy is [FIRST_ITEM]: of a
    [list[T]] only the first item is checked against [T]. *)
Definition check_list_first (h : heap) (item_ok : pyval -> option string) (v : pyval)
  : option string :=
  match v with
  | PList [] => None
  | PList (x :: _) => match item_ok x with Some m => Some ("item 0 " +:+ m) | None => None end
  | _ => Some "is not a list"
  end.

(** [@typechecked] on [content: list[ListElements]]. *)
Definition check_list_elements (h : heap) (name : string) (v : pyval) : option exn :=
  match check_list_first h (check_typed_dict h ListElements) v with
  | None => None
  | Some m => Some (TypeCheckError (argument name +:+ " (" +:+ qualified_name v +:+ ") " +:+ m))
  end.

(* ------------------------------------------------------------------ *)
(** ** slides.py *)

Section Slides.

(** The file system the slides read pictures and data files from. *)
Variable fs : string -> option file.

(** Binding [Variant(presentation, **kwargs)] to
    [__init__(self, presentation, <params>)]: keywords are bound in order;
    one naming [self] or [presentation] collides with the positional
    arguments, one naming no parameter is unexpected. *)
Fixpoint bind_kwargs (fname : string) (params : list string) (kw : pydict) : option exn :=
  match kw with
  | [] => None
  | (k, _) :: kw' =>
      if existsb (String.eqb k) ["self"; "presentation"] then
        Some (TypeError (fname +:+ "() got multiple values for argument '" +:+ k +:+ "'"))
      else if existsb (String.eqb k) params then bind_kwargs fname params kw'
      else Some (TypeError (fname +:+ "() got an unexpected keyword argument '" +:+ k +:+ "'"))
  end.

Definition bind_args (fname : string) (params : list string) (kw : pydict) : M unit :=
  raise_first [bind_kwargs fname params kw].

(** The value bound to a parameter, or its default. *)
Definition kwarg (kw : pydict) (name : string) (default : pyval) : pyval :=
  match dict_get name kw with Some v => v | None => default end.

(** [TitleSlide.__init__(self, presentation, title:str="", content:str="")]. *)
Definition TitleSlide (kw : pydict) : M unit :=
  bind_args "TitleSlide.__init__" ["title"; "content"] kw;;
  let title := kwarg kw "title" (PStr empty_str) in
  let content := kwarg kw "content" (PStr empty_str) in
  raise_first [check_str "title" title; check_str "content" content];;
  i ← add_slide 0;
  set_title i title;;
  set_placeholder_text i 1 content.

(** [TextSlide.__init__]; [add_textbox] then [tf.text = content], with
    nothing in between that can fail. *)
Definition TextSlide (kw : pydict) : M unit :=
  bind_args "TextSlide.__init__" ["title"; "content"] kw;;
  let title := kwarg kw "title" (PStr empty_str) in
  let content := kwarg kw "content" (PStr empty_str) in
  raise_first [check_str "title" title; check_str "content" content];;
  i ← add_slide 5;
  set_title i title;;
  add_shape i (TextBox (Inches 1) (Inches 2) (Inches 1) (Inches 1) (FrameText content)).

(** The body of the loop [for kwargs in content:] of [ListSlide.__init__]. *)
Definition list_entry (i : nat) (kwargs : pyval) : M unit :=
  add_paragraph i 1;;
  t ← subscript kwargs "text";
  set_paragraph_text i 1 t;;
  l ← subscript kwargs "level";
  set_paragraph_level i 1 l.

Fixpoint list_entries (i : nat) (xs : list pyval) : M unit :=
  match xs with
  | [] => mret tt
  | x :: xs' => list_entry i x;; list_entries i xs'
  end.

(** [ListSlide.__init__(self, presentation, title:str="",
    content:list[ListElements]=[])]. *)
Definition ListSlide (kw : pydict) : M unit :=
  bind_args "ListSlide.__init__" ["title"; "content"] kw;;
  let title := kwarg kw "title" (PStr empty_str) in
  let content := kwarg kw "content" (PList []) in
  h ← gets st_heap;
  raise_first [check_str "title" title; check_list_elements h "content" content];;
  i ← add_slide 1;
  set_title i title;;
  match content with
  | PList xs => list_entries i xs
  | _ => mret tt
  end.

(** [shapes.add_picture(path, left, top, height=height)]: python-pptx reads
    the file with [open(path, 'rb')], whose [FileNotFoundError] prints the
    path with [repr], then has PIL open the bytes read, whose
    [UnidentifiedImageError] (an [OSError]) names the in-memory stream; the
    stream's address is left out here. *)
Definition add_picture_file (i : nat) (path : pyval) : M unit :=
  match path with
  | PStr p =>
      match fs p with
      | Some FImage => add_shape i (Picture (Inches 1) (Inches 2) (Inches 5) (ImageFile p))
      | Some _ => mthrow (OSError "cannot identify image file <_io.BytesIO object>")
      | None => mthrow (OSError ("[Errno 2] No such file or directory: " +:+ py_str_repr p))
      end
  | _ => mret tt
  end.

(** [PictureSlide.__init__(self, presentation, title:str="", content:str="")]. *)
Definition PictureSlide (kw : pydict) : M unit :=
  bind_args "PictureSlide.__init__" ["title"; "content"] kw;;
  let title := kwarg kw "title" (PStr empty_str) in
  let content := kwarg kw "content" (PStr empty_str) in
  raise_first [check_str "title" title; check_str "content" content];;
  i ← add_slide 5;
  set_title i title;;
  add_picture_file i content.

(** [np.loadtxt(path, delimiter=';')]. *)
Definition loadtxt (path : string) : exn + ndarray :=
  match fs path with
  | None => inl (OSError (path +:+ " not found."))
  | Some (FTable rows) => table_to_array rows
  | Some (FJson _ (PInt z)) => inr (A0 z)
  | Some _ => inl (ValueError "could not convert string to float64")
  end.

Definition lift {A} (r : exn + A) : M A :=
  match r with inl e => mthrow e | inr a => mret a end.

(** [configuration[k]]; the default [configuration] is an empty dict. *)
Definition config_get (configuration : option pyval) (k : string) : M pyval :=
  match configuration with
  | None => mthrow (KeyError k)
  | Some v => subscript v k
  end.

(** [PlotSlide.__init__(self, presentation, title:str="", content:str="",
    configuration:dict={})].  [plt.plot], [plt.xlabel], [plt.ylabel] act
    on pyplot's current figure, which [plt.savefig] renders and nothing
    clears. *)
Definition PlotSlide (kw : pydict) : M unit :=
  bind_args "PlotSlide.__init__" ["title"; "content"; "configuration"] kw;;
  let title := kwarg kw "title" (PStr empty_str) in
  let content := kwarg kw "content" (PStr empty_str) in
  let configuration := dict_get "configuration" kw in
  h ← gets st_heap;
  raise_first [check_str "title" title; check_str "content" content;
               match configuration with Some c => check_dict h "configuration" c | None => None end];;
  i ← add_slide 5;
  set_title i title;;
  data ← lift (loadtxt (py_str h content));
  xs ← lift (column data 0);
  ys ← lift (column data 1);
  modify (fun s => set_fig {| fig_lines := fig_lines (st_fig s) ++ [(xs, ys)];
                              fig_xlabel := fig_xlabel (st_fig s);
                              fig_ylabel := fig_ylabel (st_fig s) |} s);;
  xl ← config_get configuration "x-label";
  modify (fun s => set_fig {| fig_lines := fig_lines (st_fig s);
                              fig_xlabel := Some xl;
                              fig_ylabel := fig_ylabel (st_fig s) |} s);;
  yl ← config_get configuration "y-label";
  modify (fun s => set_fig {| fig_lines := fig_lines (st_fig s);
                              fig_xlabel := fig_xlabel (st_fig s);
                              fig_ylabel := Some yl |} s);;
  img ← gets st_fig;
  add_shape i (Picture (Inches 1) (Inches 2) (Inches 5) (ImageChart img)).

(** [Slide.from_dict(presentation, dict)]: [type = dict.pop("type")], then
    dispatch on [type]. *)
Definition from_dict (v : pyval) : M unit :=
  match v with
  | PRef r =>
      h ← gets st_heap;
      let d := default [] (h !! r) in
      match dict_get "type" d with
      | None => mthrow (KeyError "type")
      | Some ty =>
          let kw := dict_remove "type" d in
          modify (fun s => set_heap (<[r := kw]> (st_heap s)) s);;
          match ty with
          | PStr t =>
              if String.eqb t "title" then TitleSlide kw
              else if String.eqb t "text" then TextSlide kw
              else if String.eqb t "list" then ListSlide kw
              else if String.eqb t "picture" then PictureSlide kw
              else if String.eqb t "plot" then PlotSlide kw
              else mthrow (ValueError (dq +:+ t +:+ dq +:+ " is not a valid slide type!"))
          | _ => mthrow (ValueError (dq +:+ py_str h ty +:+ dq +:+ " is not a valid slide type!"))
          end
      end
  | PList _ => mthrow (TypeError "'str' object cannot be interpreted as an integer")
  | _ => mthrow (AttributeError ("'" +:+ type_name v +:+ "' object has no attribute 'pop'"))
  end.

End Slides.

(* ------------------------------------------------------------------ *)
(** ** app.py: [App.generate] *)

Inductive level := INFO | ERROR.

(** How a call of [generate] ends: the presentation was saved to a path;
    the method logged an error and returned without saving; or an
    exception escaped it (a traceback reaches the user). *)
Inductive outcome :=
| Saved (path : string) (deck : list slide)
| Aborted
| Raised (e : exn).

Record run := { run_logs : list (level * string); run_outcome : outcome; run_state : state }.

Section Generate.

Variable fs : string -> option file.
(** Whether [presentation.save(path)] can write [path]. *)
Variable writable : string -> bool.

(** [json.load] on the opened file. *)
Definition json_load (f : file) : exn + (heap * pyval) :=
  match f with
  | FJson h root => inr (h, root)
  | FTable [[CNum z]] => inr (∅, PInt z)
  | FTable _ | FText _ => inl (JSONDecodeError "Expecting value: line 1 column 1 (char 0)")
  | FImage => inl (UnicodeDecodeError "'utf-8' codec can't decode byte 0x89 in position 0: invalid start byte")
  end.

(** [typeguard.check_type(data, Config)] where
    [class Config(TypedDict): presentation: list[dict]]. *)
Definition check_config (h : heap) (data : pyval) : option string :=
  let item_ok x := if is_dict h x then None else Some "is not a dict" in
  let presentation_ok v := match check_list_first h item_ok v with None => true | Some _ => false end in
  match check_typed_dict h [("presentation", presentation_ok)] data with
  | None => None
  | Some m => Some ("dict " +:+ m)
  end.

(** [data["presentation"]] once the check passed. *)
Definition presentation_of (h : heap) (data : pyval) : list pyval :=
  match data with
  | PRef r => match h !! r ≫= dict_get "presentation" with Some (PList xs) => xs | _ => [] end
  | _ => []
  end.

(** The [except] clauses of the loop, in order; [i] is the 0-based index
    from [enumerate]. *)
Definition slide_error_msg (i : nat) (e : exn) : option string :=
  let n := nat_dec (S i) in
  if is_value_error e then Some ("Slide number " +:+ n +:+ " is not in a valid format! " +:+ exn_str e)
  else match e with
  | TypeCheckError _ => Some ("Slide number " +:+ n +:+ " is not in a valid format! " +:+ exn_str e)
  | KeyError _ => Some ("Slide number " +:+ n +:+ " is missing a property! " +:+ exn_str e)
  | OSError _ => Some ("Slide number " +:+ n +:+ " has a file dependency which could not be loaded! "
                        +:+ exn_str e)
  | _ => None
  end.

Inductive loop_end := LoopDone | LoopAborted | LoopRaised (e : exn).

(** [for i, slide_properties in enumerate(data["presentation"]): ...],
    from index [i] on. *)
Fixpoint gen_loop (i : nat) (specs : list pyval) (s : state)
  : list (level * string) * loop_end * state :=
  match specs with
  | [] => ([], LoopDone, s)
  | sp :: rest =>
      match from_dict fs sp s with
      | (s', inr _) =>
          let '(logs, e, s'') := gen_loop (S i) rest s' in
          ((INFO, "Slide number " +:+ nat_dec (S i) +:+ " generated") :: logs, e, s'')
      | (s', inl e) =>
          match slide_error_msg i e with
          | Some m => ([(ERROR, m)], LoopAborted, s')
          | None => ([], LoopRaised e, s')
          end
      end
  end.

(** [App.generate(self, config, output)], started with pyplot's current
    figure [fig]. *)
Definition generate (fig : figure) (config output : string) : run :=
  let s0 := {| st_heap := ∅; st_slides := []; st_fig := fig |} in
  let fail m := {| run_logs := [(ERROR, m)]; run_outcome := Aborted; run_state := s0 |} in
  match fs config with
  | None => fail ("Couldn't load " +:+ dq +:+ config +:+ dq +:+ "! Please check if it's a valid path.")
  | Some f =>
      match json_load f with
      | inl (JSONDecodeError m) =>
          fail ("Config file " +:+ dq +:+ config +:+ dq +:+ " is not a valid JSON file! " +:+ m)
      | inl e => {| run_logs := []; run_outcome := Raised e; run_state := s0 |}
      | inr (h, data) =>
          match check_config h data with
          | Some m =>
              fail ("Config file " +:+ dq +:+ config +:+ dq +:+ " is not in a valid format! " +:+ m)
          | None =>
              let loaded := (INFO, "Configuration file loaded: " +:+ dq +:+ config +:+ dq) in
              let '(logs, e, s) :=
                gen_loop 0 (presentation_of h data) {| st_heap := h; st_slides := []; st_fig := fig |} in
              match e with
              | LoopDone =>
                  if writable output then
                    {| run_logs := loaded :: logs ++ [(INFO, "Presentation saved: " +:+ dq +:+ output +:+ dq)];
                       run_outcome := Saved output (st_slides s); run_state := s |}
                  else
                    {| run_logs := loaded :: logs ++
                         [(ERROR, "Couldn't save presentation to " +:+ dq +:+ output +:+ dq
                                    +:+ "! [Errno 13] Permission denied: '" +:+ output +:+ "'")];
                       run_outcome := Aborted; run_state := s |}
              | LoopAborted => {| run_logs := loaded :: logs; run_outcome := Aborted; run_state := s |}
              | LoopRaised e' => {| run_logs := loaded :: logs; run_outcome := Raised e'; run_state := s |}
              end
          end
      end
  end.

End Generate.

(* ------------------------------------------------------------------ *)
(** ** cli.py *)

Module Cli.

(** A parameter of an [Args:] section as docstring_parser returns it:
    [name (type, optional): description]. *)
Record param := {
  arg_name : string;
  arg_type_name : option string;
  arg_is_optional : bool;
  arg_description : option string
}.

(** [docstring_parser.parse(doc)]. *)
Record docstring := {
  short_description : option string;
  long_description : option string;
  params : list param
}.

(** A function object with the attributes the decorators set. *)
Record method := {
  m_name : string;
  m_doc : option docstring;
  m_is_command : bool;
  m_is_default_command : bool
}.

(** [def name(...): doc] before any decorator. *)
Definition plain_method (name : string) (doc : option docstring) : method :=
  {| m_name := name; m_doc := doc; m_is_command := false; m_is_default_command := false |}.

(** The decorator [command]. *)
Definition command (f : method) : exn + method :=
  match m_doc f with
  | None => inl (AttributeError (m_name f +:+ " has no docstring!"))
  | Some _ => inr {| m_name := m_name f; m_doc := m_doc f; m_is_command := true;
                     m_is_default_command := m_is_default_command f |}
  end.

(** The decorator [default_command]. *)
Definition default_command (f : method) : method :=
  {| m_name := m_name f; m_doc := m_doc f; m_is_command := true; m_is_default_command := true |}.

(** A handler class: its name, its docstring and its methods in the order
    of [dir(self)] (sorted by name). *)
Record handler := {
  cls_name : string;
  cls_doc : option docstring;
  methods : list method
}.

(** What a name of the module namespace of [slidepy.cli] is bound to:
    one of the builtin types imported by [from builtins import int, str,
    bool], another callable, or a non-callable object (a module, a
    string). *)
Inductive binding := BType (t : string) | BCallable (n : string) | BOther (n : string).

Definition cli_globals : list (string * binding) :=
  [("argparse", BOther "argparse"); ("wraps", BCallable "wraps"); ("re", BOther "re");
   ("docstring_parser", BOther "docstring_parser"); ("sys", BOther "sys");
   ("int", BType "int"); ("str", BType "str"); ("bool", BType "bool");
   ("command", BCallable "command"); ("default_command", BCallable "default_command");
   ("CommandlineInterface", BCallable "CommandlineInterface");
   ("__name__", BOther "__name__"); ("__doc__", BOther "__doc__"); ("__file__", BOther "__file__");
   ("__package__", BOther "__package__"); ("__spec__", BOther "__spec__");
   ("__loader__", BOther "__loader__"); ("__builtins__", BOther "__builtins__");
   ("__cached__", BOther "__cached__")].

Fixpoint assoc {A} (k : string) (l : list (string * A)) : option A :=
  match l with
  | [] => None
  | (k', a) :: l' => if String.eqb k k' then Some a else assoc k l'
  end.

(** [getattr(sys.modules[__name__], type_name)]. *)
Definition module_getattr (tn : option string) : exn + binding :=
  match tn with
  | None => inl (TypeError "attribute name must be string, not 'NoneType'")
  | Some n =>
      match assoc n cli_globals with
      | Some b => inr b
      | None => inl (AttributeError ("module 'slidepy.cli' has no attribute '" +:+ n +:+ "'"))
      end
  end.

Inductive action := StoreTrue | Store (conv : binding).

(** An optional argument of an [argparse] parser. *)
Record flag := {
  f_option : string;
  f_dest : string;
  f_action : action;
  f_required : bool;
  f_default : pyval;
  f_help : option string
}.

Record subparser := { sp_cmd : string; sp_description : option string; sp_flags : list flag }.

(** The dispatcher built by [CommandlineInterface.__init__]. *)
Record cli := {
  cli_description : string;
  cli_subparsers : list subparser;
  cli_cmds : list (string * string)     (** command name to method name *)
}.

(** [s.replace('_', '-')]. *)
Fixpoint underscores_to_hyphens (s : string) : string :=
  match s with
  | EmptyString => EmptyString
  | String c s' => String (if Ascii.eqb c "_"%char then "-"%char else c) (underscores_to_hyphens s')
  end.

(** [parser.add_argument(...)]: a non-callable [type] is a [ValueError];
    an option string already taken (the parser's own [--help] included) is
    an [argparse.ArgumentError]. *)
Definition add_argument (fl : list flag) (f : flag) : exn + list flag :=
  match f_action f with
  | Store (BOther n) => inl (ValueError ("'" +:+ n +:+ "' is not callable"))
  | _ =>
      if existsb (String.eqb (f_option f)) ("--help" :: map f_option fl) then
        inl (ArgumentError ("argument " +:+ f_option f +:+ ": conflicting option string: " +:+ f_option f))
      else inr (fl ++ [f])
  end.

(** The flag the loop [for arg in doc.params:] derives from one documented
    parameter. *)
Definition flag_of_param (a : param) : exn + flag :=
  let opt := "--" +:+ underscores_to_hyphens (arg_name a) in
  if match arg_type_name a with Some t => String.eqb t "bool" | None => false end then
    inr {| f_option := opt; f_dest := arg_name a; f_action := StoreTrue; f_required := false;
           f_default := PBool false; f_help := arg_description a |}
  else
    match module_getattr (arg_type_name a) with
    | inl e => inl e
    | inr b => inr {| f_option := opt; f_dest := arg_name a; f_action := Store b;
                      f_required := negb (arg_is_optional a); f_default := PNone;
                      f_help := arg_description a |}
    end.

(** The arguments of one sub-command, in the order of [doc.params]. *)
Fixpoint add_params (fl : list flag) (ps : list param) : exn + list flag :=
  match ps with
  | [] => inr fl
  | a :: ps' =>
      match flag_of_param a with
      | inl e => inl e
      | inr f => match add_argument fl f with inl e => inl e | inr fl' => add_params fl' ps' end
      end
  end.

Definition nl : string := String (ascii_of_nat 10) EmptyString.

(** [d[k] = v] on a dict kept as an association list. *)
Fixpoint assoc_set {A} (k : string) (v : A) (l : list (string * A)) : list (string * A) :=
  match l with
  | [] => [(k, v)]
  | (k', a) :: l' => if String.eqb k k' then (k, v) :: l' else (k', a) :: assoc_set k v l'
  end.

Definition no_doc : docstring := {| short_description := None; long_description := None; params := [] |}.

(** The loop [for attr in dir(self):] of [CommandlineInterface.__init__];
    [help] is the variable [help_text], which carries over from one command
    to the next. *)
Fixpoint scan_methods (help : string) (ms : list method) (c : cli) : exn + cli :=
  match ms with
  | [] => inr c
  | m :: ms' =>
      if negb (m_is_command m) then scan_methods help ms' c
      else if m_is_default_command m then
        scan_methods help ms' {| cli_description := cli_description c;
                                 cli_subparsers := cli_subparsers c;
                                 cli_cmds := assoc_set empty_str (m_name m) (cli_cmds c) |}
      else
        let doc := default no_doc (m_doc m) in
        let help1 := default help (short_description doc) in
        let help2 := match long_description doc with
                     | Some ld => help1 +:+ nl +:+ nl +:+ ld
                     | None => help1
                     end in
        let cmd := underscores_to_hyphens (m_name m) in
        match add_params [] (params doc) with
        | inl e => inl e
        | inr fl =>
            scan_methods help2 ms'
              {| cli_description := cli_description c;
                 cli_subparsers := cli_subparsers c ++ [{| sp_cmd := cmd; sp_description := Some help2;
                                                           sp_flags := fl |}];
                 cli_cmds := assoc_set cmd (m_name m) (cli_cmds c) |}
        end
  end.

(** [CommandlineInterface.__init__(self, prog)].  With no class docstring
    the line [raise AttributeError(f'{self.__name__} has no docstring!')]
    fails on [self.__name__] itself, an instance having no [__name__]. *)
Definition CommandlineInterface (hd : handler) : exn + cli :=
  match cls_doc hd with
  | None => inl (AttributeError ("'" +:+ cls_name hd +:+ "' object has no attribute '__name__'"))
  | Some doc =>
      match short_description doc, long_description doc with
      | Some sd, Some ld =>
          let help := sd +:+ nl +:+ nl +:+ ld in
          scan_methods help (methods hd) {| cli_description := help; cli_subparsers := [];
                                            cli_cmds := [] |}
      | None, _ => inl (TypeError "unsupported operand type(s) for +: 'NoneType' and 'str'")
      | Some _, None =>
          inl (TypeError ("can only concatenate str (not " +:+ dq +:+ "NoneType" +:+ dq +:+ ") to str"))
      end
  end.

(* ------------------------------------------------------------------ *)
(** *** argparse, for the sub-command parsers built above

    Tokens are whole command-line words.  Recognized: [-h] and [--help];
    [--name] and [--name=value]; an unambiguous prefix of a long option
    ([allow_abbrev]); a negative number is a value, not an option.  Any
    other word starting with [-] is an unknown option. *)

(** A parsed value: a Python value, or the result of calling a callable
    bound in the module namespace on the raw string. *)
Inductive argval := AVal (v : pyval) | ACall (f : string) (raw : string).

Inductive parse_result :=
| ParsedCommand (cmd : string) (kwargs : list (string * argval))
| PrintedHelp
| UsageError (msg : string).

Definition is_digit (c : ascii) : bool :=
  let n := nat_of_ascii c in Nat.leb 48 n && Nat.leb n 57.

Definition all_digits (s : string) : bool := forallb is_digit (list_ascii_of_string s).

(** [\d*\.\d+]. *)
Fixpoint decimal_fraction (s : string) : bool :=
  match s with
  | EmptyString => false
  | String c s' =>
      if Ascii.eqb c "." then negb (String.eqb s' EmptyString) && all_digits s'
      else is_digit c && decimal_fraction s'
  end.

(** [s] without one final newline, which a [$] of a Python regular
    expression also matches before. *)
Definition strip_final_newline (s : string) : string :=
  let n := String.length s in
  match String.get (Nat.pred n) s with
  | Some c => if Ascii.eqb c (ascii_of_nat 10) then String.substring 0 (Nat.pred n) s else s
  | None => s
  end.

(** argparse's [_negative_number_matcher], [^-\d+$|^-\d*\.\d+$]. *)
Definition looks_negative_number (tok : string) : bool :=
  match strip_final_newline tok with
  | String "-" r => (negb (String.eqb r EmptyString) && all_digits r) || decimal_fraction r
  | _ => false
  end.

(** Whether argparse classifies the word as an option ('O'). *)
Definition is_option_word (tok : string) : bool :=
  match tok with
  | String "-" (String _ _) => negb (looks_negative_number tok)
  | _ => false
  end.

(** [s.split('=', 1)]. *)
Fixpoint split_eq (s : string) : string * option string :=
  match s with
  | EmptyString => (EmptyString, None)
  | String c s' =>
      if Ascii.eqb c "=" then (EmptyString, Some s')
      else let '(a, b) := split_eq s' in (String c a, b)
  end.

Inductive opt_match :=
| OptHelp
| OptFlag (f : flag) (explicit : option string)
| OptAmbiguous (cands : list string)
| OptUnknown.

Fixpoint find_flag (o : string) (fl : list flag) : option flag :=
  match fl with
  | [] => None
  | f :: fl' => if String.eqb o (f_option f) then Some f else find_flag o fl'
  end.

(** [_parse_optional] for an option word. *)
Definition match_option (fl : list flag) (tok : string) : opt_match :=
  if String.eqb tok "-h" || String.eqb tok "--help" then OptHelp
  else match find_flag tok fl with
  | Some f => OptFlag f None
  | None =>
      let '(o, explicit) := split_eq tok in
      match explicit, find_flag o fl with
      | Some _, Some f => OptFlag f explicit
      | _, _ =>
          if String.prefix "--" o then
            let longs := "--help" :: map f_option fl in
            match List.filter (String.prefix o) longs with
            | [o'] => if String.eqb o' "--help" then OptHelp
                      else match find_flag o' fl with Some f => OptFlag f explicit | None => OptUnknown end
            | [] => OptUnknown
            | cands => OptAmbiguous cands
            end
          else OptUnknown
      end
  end.

(** The conversion [type=...] of a value-taking option. *)
Definition convert (f : flag) (b : binding) (raw : string) : string + argval :=
  match b with
  | BType "int" =>
      let digits := match raw with String "-" r | String "+" r => r | _ => raw end in
      if negb (String.eqb digits EmptyString) && forallb is_digit (list_ascii_of_string digits) then
        inr (ACall "int" raw)
      else inl ("argument " +:+ f_option f +:+ ": invalid int value: '" +:+ raw +:+ "'")
  | BType "str" => inr (AVal (PStr raw))
  | BType t | BCallable t | BOther t => inr (ACall t raw)
  end.

Inductive sub_result :=
| SubHelp
| SubError (msg : string)
| SubOk (seen : list (string * argval)) (extras : list string).

(** Consuming the words after the sub-command name. *)
Fixpoint consume (fl : list flag) (argv : list string) (seen : list (string * argval))
    (extras : list string) : sub_result :=
  match argv with
  | [] => SubOk seen extras
  | tok :: rest =>
      if negb (is_option_word tok) then consume fl rest seen (extras ++ [tok])
      else match match_option fl tok with
      | OptHelp => SubHelp
      | OptUnknown => consume fl rest seen (extras ++ [tok])
      | OptAmbiguous cands =>
          SubError ("ambiguous option: " +:+ tok +:+ " could match " +:+ join ", " cands)
      | OptFlag f explicit =>
          match f_action f, explicit with
          | StoreTrue, Some x =>
              SubError ("argument " +:+ f_option f +:+ ": ignored explicit argument '" +:+ x +:+ "'")
          | StoreTrue, None => consume fl rest (assoc_set (f_dest f) (AVal (PBool true)) seen) extras
          | Store b, Some x =>
              match convert f b x with
              | inl m => SubError m
              | inr v => consume fl rest (assoc_set (f_dest f) v seen) extras
              end
          | Store b, None =>
              match rest with
              | x :: rest' =>
                  if is_option_word x then SubError ("argument " +:+ f_option f +:+ ": expected one argument")
                  else match convert f b x with
                       | inl m => SubError m
                       | inr v => consume fl rest' (assoc_set (f_dest f) v seen) extras
                       end
              | [] => SubError ("argument " +:+ f_option f +:+ ": expected one argument")
              end
          end
      end
  end.

(** [parser.parse_args()] on the words after the program name; an empty
    command line selects the default command ([cmd = '']). *)
Definition parse_args (c : cli) (argv : list string) : parse_result :=
  match argv with
  | [] => ParsedCommand empty_str []
  | tok :: rest =>
      if String.eqb tok "-h" || String.eqb tok "--help" then PrintedHelp
      else if is_option_word tok then UsageError ("unrecognized arguments: " +:+ join " " argv)
      else match List.find (fun sp => String.eqb (sp_cmd sp) tok) (cli_subparsers c) with
      | None =>
          UsageError ("argument {" +:+ join "," (map sp_cmd (cli_subparsers c)) +:+ "}: invalid choice: '"
                      +:+ tok +:+ "'")
      | Some sp =>
          match consume (sp_flags sp) rest [] [] with
          | SubHelp => PrintedHelp
          | SubError m => UsageError m
          | SubOk seen extras =>
              let missing := List.filter (fun f => f_required f && negb (existsb (String.eqb (f_dest f))
                                                                           (map fst seen)))
                                         (sp_flags sp) in
              match missing, extras with
              | _ :: _, _ =>
                  UsageError ("the following arguments are required: " +:+ join ", " (map f_option missing))
              | [], _ :: _ => UsageError ("unrecognized arguments: " +:+ join " " extras)
              | [], [] =>
                  ParsedCommand tok (map (fun f => (f_dest f, default (AVal (f_default f)) (assoc (f_dest f) seen)))
                                         (sp_flags sp))
              end
          end
      end
  end.

(** How [CommandlineInterface.run] ends: argparse printed the help and
    exited with status 0; argparse printed a usage error and exited with
    status 2; the method [meth] was called with [kwargs]; or an exception
    escaped. *)
Inductive run_result :=
| RunHelp
| RunUsage (msg : string)
| RunCall (meth : string) (kwargs : list (string * argval))
| RunRaised (e : exn).

(** [CommandlineInterface.run]: [self._args = self._parser.parse_args()],
    then the method [self._cmds[cmd]] is called with the keyword arguments
    [kwargs]: the attributes of the namespace other than [cmd]. *)
Definition run (c : cli) (argv : list string) : run_result :=
  match parse_args c argv with
  | PrintedHelp => RunHelp
  | UsageError m => RunUsage m
  | ParsedCommand cmd kwargs =>
      match assoc cmd (cli_cmds c) with
      | Some meth => RunCall meth kwargs
      | None => RunRaised (KeyError cmd)
      end
  end.

End Cli.

(* ------------------------------------------------------------------ *)
(** ** The [App] handler of app.py *)

Module AppCli.
Import Cli.

Definition generate_doc : docstring := {|
  short_description := Some "Report generation";
  long_description := Some "Use this subcommand to generate a report based on a configuration file.";
  params := [
    {| arg_name := "config"; arg_type_name := Some "str"; arg_is_optional := false;
       arg_description := Some "Path to the configuration file" |};
    {| arg_name := "output"; arg_type_name := Some "str"; arg_is_optional := false;
       arg_description := Some "Save the generated report into this file" |}]
|}.

Definition app_doc : docstring := {|
  short_description := Some "SlidePy";
  long_description :=
    Some "This application is used to generate a report in pptx format based on a configuration file.";
  params := []
|}.

Definition run_doc : docstring := {|
  short_description := Some "Parse commandline arguments and execute the corresponding command.";
  long_description := None;
  params := []
|}.

(** The class body of [App]: [generate] decorated with [command],
    [default] (no docstring) with [default_command]; the methods in the
    order of [dir]. *)
Definition App_class : exn + handler :=
  match command (plain_method "generate" (Some generate_doc)) with
  | inl e => inl e
  | inr g =>
      inr {| cls_name := "App"; cls_doc := Some app_doc;
             methods := [plain_method "_configure_logger" None;
                         default_command (plain_method "default" None);
                         g;
                         plain_method "run" (Some run_doc)] |}
  end.

(** [App()]: the class body, then [CommandlineInterface.__init__]. *)
Definition App : exn + cli :=
  match App_class with
  | inl e => inl e
  | inr hd => CommandlineInterface hd
  end.

End AppCli.

(** How [App().run()] ends: argparse printed the help and exited; argparse
    printed a usage error and exited; [App.default] printed the help of the
    main parser ([self._parser.print_help()]); [App.generate] ran; or an
    exception escaped. *)
Inductive app_result :=
| AppHelpExit
| AppUsage (msg : string)
| AppPrintedHelp
| AppGenerate (r : run)
| AppRaised (e : exn).

(** [App().run()] on the command line [argv]: [App()] builds the
    dispatcher (and configures the logger), [run] calls the selected bound
    method with the parsed keyword arguments. *)
Definition App_run (fs : string -> option file) (writable : string -> bool) (fig : figure)
    (argv : list string) : app_result :=
  match AppCli.App with
  | inl e => AppRaised e
  | inr c =>
      match Cli.run c argv with
      | Cli.RunHelp => AppHelpExit
      | Cli.RunUsage m => AppUsage m
      | Cli.RunRaised e => AppRaised e
      | Cli.RunCall meth kwargs =>
          if String.eqb meth "default" then
            match kwargs with
            | [] => AppPrintedHelp
            | (k, _) :: _ => AppRaised (TypeError ("App.default() got an unexpected keyword argument '"
                                                    +:+ k +:+ "'"))
            end
          else if String.eqb meth "generate" then
            match Cli.assoc "config" kwargs, Cli.assoc "output" kwargs with
            | Some (Cli.AVal (PStr config)), Some (Cli.AVal (PStr output)) =>
                AppGenerate (generate fs writable fig config output)
            | _, _ => AppRaised (TypeError "App.generate() missing required positional arguments")
            end
          else AppRaised (AttributeError ("'App' object has no attribute '" +:+ meth +:+ "'"))
      end
  end.

(* ------------------------------------------------------------------ *)
(** ** Specifications used by the theorems below *)


Definition known_type (t : string) : bool :=
  existsb (String.eqb t) ["title"; "text"; "list"; "picture"; "plot"].

Definition allowed_keys (t : string) : list string :=
  if String.eqb t "plot" then ["title"; "content"; "configuration"] else ["title"; "content"].

Definition opt_str (o : option pyval) : bool :=
  match o with None | Some (PStr _) => true | Some _ => false end.

(** A [{level: int, text: str}] record, as JSON gives it, whose level
    python-pptx accepts (0 to 8). *)
Definition list_entry_ok (h : heap) (x : pyval) : bool :=
  match x with
  | PRef r =>
      match h !! r with
      | Some d =>
          forallb (fun k => String.eqb k "level" || String.eqb k "text") (dict_keys d)
          && match dict_get "level" d with Some (PInt z) => Z.leb 0 z && Z.leb z 8 | _ => false end
          && match dict_get "text" d with Some (PStr _) => true | _ => false end
      | None => false
      end
  | _ => false
  end.


Definition has_key (h : heap) (v : pyval) (k : string) : bool :=
  match v with
  | PRef r => match h !! r ≫= dict_get k with Some _ => true | None => false end
  | _ => false
  end.



(** [dict.pop("type")] as seen in the heap: the heap after [from_dict]. *)
Definition pop_type (h : heap) (v : pyval) : heap :=
  match v with
  | PRef r =>
      match h !! r with
      | Some d => match dict_get "type" d with Some _ => <[r := dict_remove "type" d]> h | None => h end
      | None => h
      end
  | _ => h
  end.

(** The unknown-type error of [Slide.from_dict]. *)
Definition unknown_type_msg (h : heap) (ty : pyval) : string :=
  dq +:+ py_str h ty +:+ dq +:+ " is not a valid slide type!".

Definition is_known_type (ty : pyval) : bool :=
  match ty with PStr t => known_type t | _ => false end.






(** [h'] is [h] with [type] keys removed from some dicts. *)
Definition heap_le (h h' : heap) : Prop :=
  forall r d, h !! r = Some d -> exists d', h' !! r = Some d' /\
    (forall k, k <> "type" -> dict_get k d' = dict_get k d) /\
    (forall k, In k (dict_keys d') -> In k (dict_keys d)).

(** A command-line word argparse reads as a value whatever the parser's
    options: it does not start with [-]. *)
Definition plain_word (w : string) : bool :=
  match w with String "-" _ => false | _ => true end.

(** The log line of a slide built by the loop of [App.generate]. *)
Definition generated_msg (k : nat) : level * string :=
  (INFO, "Slide number " +:+ nat_dec k +:+ " generated").

(** On success, [m] appends exactly [n] slides (and edits only existing ones). *)
Definition adds {A} (n : nat) (m : M A) : Prop :=
  forall s s' a, m s = (s', inr a) -> length (st_slides s') = (length (st_slides s) + n)%nat.

(** The dispatcher [App()] builds. *)
Definition app_cli : Cli.cli :=
  Eval vm_compute in
  match AppCli.App with
  | inr c => c
  | inl _ => {| Cli.cli_description := empty_str; Cli.cli_subparsers := []; Cli.cli_cmds := [] |}
  end.

(* ------------------------------------------------------------------ *)
(** ** Concrete inputs *)

Module Ex.

(** A file system given by its files. *)
Fixpoint files (l : list (string * file)) (p : string) : option file :=
  match l with
  | [] => None
  | (q, f) :: l' => if String.eqb p q then Some f else files l' p
  end.

Definition heap_of (l : list (loc * pydict)) : heap := list_to_map l.

Definition state0 (h : heap) : state := {| st_heap := h; st_slides := []; st_fig := empty_figure |}.

(** [{"presentation": [{"type": "chart"}, {"type": "title"}]}] *)
Definition h_unknown : heap :=
  heap_of [(0, [("presentation", PList [PRef 1; PRef 2])]);
           (1, [("type", PStr "chart")]);
           (2, [("type", PStr "title")])].
Definition fs_unknown : string -> option file := files [("config.json", FJson h_unknown (PRef 0))].

(** [{"type": "title", "title": "T"}] as the dict at 1 *)
Definition h_title : heap := heap_of [(1, [("type", PStr "title"); ("title", PStr "T")])].

(** [{"presentation": [{"type": "title", "subtitle": "x"}]}] *)
Definition h_extra_field : heap :=
  heap_of [(0, [("presentation", PList [PRef 1])]);
           (1, [("type", PStr "title"); ("subtitle", PStr "x")])].
Definition fs_extra_field : string -> option file :=
  files [("config.json", FJson h_extra_field (PRef 0))].

(** [{"presentation": [{"type": "title", "title": "T"}, 5]}] *)
Definition h_second_not_object : heap :=
  heap_of [(0, [("presentation", PList [PRef 1; PInt 5])]);
           (1, [("type", PStr "title"); ("title", PStr "T")])].
Definition fs_second_not_object : string -> option file :=
  files [("config.json", FJson h_second_not_object (PRef 0))].

(** A handler whose command documents a parameter of type [float]. *)
Definition scale_doc : Cli.docstring := {|
  Cli.short_description := Some "Scale the report";
  Cli.long_description := None;
  Cli.params := [{| Cli.arg_name := "factor"; Cli.arg_type_name := Some "float";
                    Cli.arg_is_optional := false; Cli.arg_description := Some "Scale factor" |}]
|}.

Definition float_handler : Cli.handler := {|
  Cli.cls_name := "Tool";
  Cli.cls_doc := Some AppCli.app_doc;
  Cli.methods := match Cli.command (Cli.plain_method "scale" (Some scale_doc)) with
                 | inr m => [m]
                 | inl _ => []
                 end
|}.

(** [{"presentation": [{"type": "list", "title": "L", "content":
    [{"level": 0, "text": "a"}, {"level": 1, "text": "b"}]}]}] *)
Definition h_list : heap :=
  heap_of [(0, [("presentation", PList [PRef 1])]);
           (1, [("type", PStr "list"); ("title", PStr "L"); ("content", PList [PRef 2; PRef 3])]);
           (2, [("level", PInt 0); ("text", PStr "a")]);
           (3, [("level", PInt 1); ("text", PStr "b")])].
Definition fs_list : string -> option file := files [("config.json", FJson h_list (PRef 0))].

(** A presentation with one slide of each type and two plot slides. *)
Definition h_deck : heap :=
  heap_of [(0, [("presentation", PList [PRef 1; PRef 2; PRef 3; PRef 4; PRef 5; PRef 6])]);
           (1, [("type", PStr "title"); ("title", PStr "Report"); ("content", PStr "Q3")]);
           (2, [("type", PStr "text"); ("title", PStr "Notes"); ("content", PStr "All good")]);
           (3, [("type", PStr "list"); ("title", PStr "Points"); ("content", PList [PRef 7])]);
           (4, [("type", PStr "picture"); ("title", PStr "Logo"); ("content", PStr "logo.png")]);
           (5, [("type", PStr "plot"); ("title", PStr "Sales"); ("content", PStr "sales.csv");
                ("configuration", PRef 8)]);
           (6, [("type", PStr "plot"); ("title", PStr "Costs"); ("content", PStr "costs.csv");
                ("configuration", PRef 9)]);
           (7, [("level", PInt 0); ("text", PStr "a")]);
           (8, [("x-label", PStr "t"); ("y-label", PStr "sales")]);
           (9, [("x-label", PStr "t"); ("y-label", PStr "costs")])].
Definition fs_deck : string -> option file :=
  files [("config.json", FJson h_deck (PRef 0)); ("logo.png", FImage);
         ("sales.csv", FTable [[CNum 1; CNum 10]; [CNum 2; CNum 20]]);
         ("costs.csv", FTable [[CNum 1; CNum 5]; [CNum 2; CNum 6]])].



(** [{"presentation": []}] *)
Definition h_empty : heap := heap_of [(0, [("presentation", PList [])])].
Definition fs_empty : string -> option file := files [("config.json", FJson h_empty (PRef 0))].

(** [{"type": "text", "title": 3}] as the dict at 1 *)
Definition h_bad_title : heap := heap_of [(1, [("type", PStr "text"); ("title", PInt 3)])].


(** A list slide whose second entry has no [text]. *)
Definition h_list_no_text : heap :=
  heap_of [(1, [("type", PStr "list"); ("title", PStr "L"); ("content", PList [PRef 2; PRef 3])]);
              (2, [("level", PInt 0); ("text", PStr "a")]);
              (3, [("level", PInt 1)])].

(** A list slide whose second entry is nested nine levels deep. *)
Definition h_list_deep : heap :=
  heap_of [(1, [("type", PStr "list"); ("title", PStr "L"); ("content", PList [PRef 2; PRef 3])]);
              (2, [("level", PInt 0); ("text", PStr "a")]);
              (3, [("level", PInt 9); ("text", PStr "b")])].


Definition cmd (name : string) (doc : option Cli.docstring) : Cli.method :=
  {| Cli.m_name := name; Cli.m_doc := doc; Cli.m_is_command := true; Cli.m_is_default_command := false |}.

(** The class body of [App], as [AppCli.App_class] builds it. *)
Definition app_handler : Cli.handler := {|
  Cli.cls_name := "App"; Cli.cls_doc := Some AppCli.app_doc;
  Cli.methods := [Cli.plain_method "_configure_logger" None;
                  Cli.default_command (Cli.plain_method "default" None);
                  cmd "generate" (Some AppCli.generate_doc);
                  Cli.plain_method "run" (Some AppCli.run_doc)] |}.

(** A command documenting a parameter named [help]. *)
Definition help_param : Cli.param :=
  {| Cli.arg_name := "help"; Cli.arg_type_name := Some "bool"; Cli.arg_is_optional := true;
     Cli.arg_description := Some "Show the help" |}.
Definition help_handler : Cli.handler := {|
  Cli.cls_name := "Tool"; Cli.cls_doc := Some AppCli.app_doc;
  Cli.methods := [cmd "export" (Some {| Cli.short_description := Some "Export";
                                        Cli.long_description := None;
                                        Cli.params := [help_param] |})] |}.

(** Two commands, the second without descriptions. *)
Definition carry_handler : Cli.handler := {|
  Cli.cls_name := "Tool"; Cli.cls_doc := Some AppCli.app_doc;
  Cli.methods := [cmd "build" (Some AppCli.run_doc); cmd "clean" (Some Cli.no_doc)] |}.
Definition carry_cli : Cli.cli :=
  match Cli.CommandlineInterface carry_handler with
  | inr c => c
  | inl _ => {| Cli.cli_description := empty_str; Cli.cli_subparsers := []; Cli.cli_cmds := [] |}
  end.

End Ex.

(* ================================================================== *)
(** * Lemmas *)

(** ** The monad *)

Ltac mrun :=
  repeat progress (unfold mbind, M_bind, mret, M_ret, mthrow, M_throw, gets, modify, lift,
                     add_slide, set_title, set_placeholder_text, alter_slide, add_shape,
                     add_paragraph, set_last_paragraph, set_paragraph_text, set_paragraph_level, raise_first, bind_args; cbn).

Lemma alter_app_last {A} (f : A -> A) (l : list A) (x : A) :
  alter f (length l) (l ++ [x]) = l ++ [f x].
Proof. induction l as [|y l IH]; cbn; [done|]. by rewrite IH. Qed.

(** A computation that leaves the heap alone. *)
Definition keeps_heap {A} (m : M A) : Prop := forall s, st_heap (fst (m s)) = st_heap s.

Lemma kh_ret {A} (a : A) : keeps_heap (mret a).
Proof. intros s. reflexivity. Qed.

Lemma kh_throw {A} (e : exn) : keeps_heap (mthrow (A:=A) e).
Proof. intros s. reflexivity. Qed.

Lemma kh_bind {A B} (m : M A) (k : A -> M B) :
  keeps_heap m -> (forall a, keeps_heap (k a)) -> keeps_heap (m ≫= k).
Proof.
  intros Hm Hk s. unfold mbind, M_bind. specialize (Hm s).
  destruct (m s) as [s' [e|a]]; cbn in *; [done|]. by rewrite Hk.
Qed.

Lemma kh_gets {A} (f : state -> A) : keeps_heap (gets f).
Proof. intros s. reflexivity. Qed.

Lemma kh_alter_slide i f : keeps_heap (alter_slide i f).
Proof. intros s. reflexivity. Qed.

Lemma kh_add_slide l : keeps_heap (add_slide l).
Proof. intros s. reflexivity. Qed.

Lemma kh_set_fig (g : state -> figure) : keeps_heap (modify (fun s => set_fig (g s) s)).
Proof. intros s. reflexivity. Qed.

Lemma kh_raise_first es : keeps_heap (raise_first es).
Proof. intros s. unfold raise_first. by destruct (omap id es). Qed.

Lemma kh_lift {A} (r : exn + A) : keeps_heap (lift r).
Proof. intros s. by destruct r. Qed.

Lemma kh_subscript v k : keeps_heap (subscript v k).
Proof.
  intros s. destruct v; try reflexivity. unfold subscript.
  destruct (st_heap s !! r) as [d|] eqn:E; [destruct (dict_get k d) eqn:E2|]; mrun;
    rewrite ?E; cbn; rewrite ?E2; reflexivity.
Qed.

Lemma kh_config_get c k : keeps_heap (config_get c k).
Proof. destruct c; [apply kh_subscript|apply kh_throw]. Qed.

Create HintDb heapdb.
#[local] Hint Resolve kh_ret kh_throw kh_bind kh_gets kh_alter_slide kh_add_slide kh_set_fig
  kh_raise_first kh_lift kh_subscript kh_config_get : heapdb.
#[local] Hint Unfold bind_args set_title add_shape set_placeholder_text add_paragraph
  set_last_paragraph : heapdb.

Ltac kh_solve := autounfold with heapdb; eauto 20 with heapdb.

Lemma kh_set_paragraph_text i idx v : keeps_heap (set_paragraph_text i idx v).
Proof. unfold set_paragraph_text. destruct v; kh_solve. Qed.

Lemma kh_set_paragraph_level i idx v : keeps_heap (set_paragraph_level i idx v).
Proof.
  unfold set_paragraph_level. destruct v as [|[]|z| | |]; try kh_solve.
  destruct (Z.leb 0 z && Z.leb z 8); kh_solve.
Qed.

#[local] Hint Resolve kh_set_paragraph_text kh_set_paragraph_level : heapdb.

Lemma kh_list_entries i xs : keeps_heap (list_entries i xs).
Proof.
  induction xs as [|x xs IH]; cbn; [apply kh_ret|].
  apply kh_bind; [|intros; apply IH]. unfold list_entry. kh_solve.
Qed.

Lemma kh_add_picture_file fs i p : keeps_heap (add_picture_file fs i p).
Proof.
  unfold add_picture_file. destruct p; try apply kh_ret.
  destruct (fs s) as [[]|]; kh_solve.
Qed.

#[local] Hint Resolve kh_list_entries kh_add_picture_file : heapdb.

Lemma kh_variant fs kw :
  keeps_heap (TitleSlide kw) /\ keeps_heap (TextSlide kw) /\ keeps_heap (ListSlide kw)
  /\ keeps_heap (PictureSlide fs kw) /\ keeps_heap (PlotSlide fs kw).
Proof.
  repeat split.
  - unfold TitleSlide. kh_solve.
  - unfold TextSlide. kh_solve.
  - unfold ListSlide. destruct (kwarg kw "content" (PList [])); kh_solve.
  - unfold PictureSlide. kh_solve.
  - unfold PlotSlide. kh_solve.
Qed.

(** ** [Slide.from_dict] and the heap *)

Lemma from_dict_heap fs v s : st_heap (fst (from_dict fs v s)) = pop_type (st_heap s) v.
Proof.
  destruct v; try reflexivity. unfold from_dict, pop_type.
  unfold mbind at 1, M_bind at 1, gets. cbn.
  destruct (st_heap s !! r) as [d|] eqn:Hr; cbn.
  - destruct (dict_get "type" d) as [ty|] eqn:Ht; [|reflexivity].
    unfold mbind at 1, M_bind at 1, modify. cbn.
    pose proof (kh_variant fs (dict_remove "type" d)) as (H1 & H2 & H3 & H4 & H5).
    destruct ty; try reflexivity.
    repeat match goal with |- context [if String.eqb ?a ?b then _ else _] => destruct (String.eqb a b) end;
      try reflexivity; [apply H1|apply H2|apply H3|apply H4|apply H5].
  - destruct (dict_get "type" []); reflexivity.
Qed.


Lemma dict_get_remove_nodup k d :
  NoDup (dict_keys d) -> dict_get k (dict_remove k d) = None.
Proof.
  induction d as [|[k' v] d IH]; cbn; [done|]. intros Hnd. inversion Hnd as [|? ? Hnin Hnd']; subst.
  destruct (String.eqb k k') eqn:E; cbn.
  - apply String.eqb_eq in E; subst k'.
    clear IH Hnd Hnd'. induction d as [|[k2 v2] d IH2]; cbn; [done|].
    destruct (String.eqb k k2) eqn:E2.
    + apply String.eqb_eq in E2; subst. exfalso. apply Hnin. cbn. left.
    + apply IH2. intros Hin. apply Hnin. cbn. by right.
  - rewrite E. by apply IH.
Qed.

Lemma from_dict_no_type fs s r d :
  st_heap s !! r = Some d -> dict_get "type" d = None ->
  from_dict fs (PRef r) s = (s, inl (KeyError "type")).
Proof. intros Hr Ht. unfold from_dict. mrun. rewrite Hr. cbn. by rewrite Ht. Qed.

Lemma from_dict_unknown fs s r d ty :
  st_heap s !! r = Some d -> dict_get "type" d = Some ty -> is_known_type ty = false ->
  from_dict fs (PRef r) s =
  (set_heap (<[r := dict_remove "type" d]> (st_heap s)) s,
   inl (ValueError (unknown_type_msg (st_heap s) ty))).
Proof.
  intros Hr Ht Hk. unfold from_dict. mrun. rewrite Hr. cbn. rewrite Ht. cbn.
  destruct ty; try reflexivity. cbn in Hk. unfold known_type in Hk. cbn in Hk.
  repeat match goal with
         | H : (?a || ?b) = false |- _ => apply orb_false_iff in H as [? ?]
         end.
  repeat match goal with H : String.eqb _ _ = false |- _ => rewrite H end. reflexivity.
Qed.

Lemma pop_type_lookup_other h v r :
  v <> PRef r -> pop_type h v !! r = h !! r.
Proof.
  intros Hne. destruct v; try reflexivity. cbn.
  destruct (h !! r0) as [d|]; [|done]. destruct (dict_get "type" d); [|done].
  apply lookup_insert_ne. congruence.
Qed.

(** A failing slide ends the loop there. *)
Lemma gen_loop_error fs i v rest s s' e :
  from_dict fs v s = (s', inl e) ->
  gen_loop fs i (v :: rest) s =
  match slide_error_msg i e with
  | Some m => ([(ERROR, m)], LoopAborted, s')
  | None => ([], LoopRaised e, s')
  end.
Proof. intros H. cbn. by rewrite H. Qed.

Lemma gen_loop_not_done_unknown fs pre r post d ty :
  forall i s, st_heap s !! r = Some d -> dict_get "type" d = Some ty -> is_known_type ty = false ->
  (gen_loop fs i (pre ++ PRef r :: post) s).1.2 <> LoopDone.
Proof.
  induction pre as [|v pre IH]; intros i s Hr Ht Hk; cbn [app].
  - rewrite (gen_loop_error _ _ _ _ _ _ _ (from_dict_unknown fs s r d ty Hr Ht Hk)). cbn. discriminate.
  - cbn. pose proof (from_dict_heap fs v s) as Hh.
    destruct (from_dict fs v s) as [s' [e|[]]] eqn:Hf.
    + destruct (slide_error_msg i e); cbn; discriminate.
    + assert (Hd : v = PRef r \/ v <> PRef r).
      { destruct v; try (right; discriminate). destruct (Nat.eq_dec r0 r); [left|right]; congruence. }
      destruct Hd as [->|Hne].
      { rewrite (from_dict_unknown fs s r d ty Hr Ht Hk) in Hf. discriminate. }
      destruct (gen_loop fs (S i) (pre ++ PRef r :: post) s') as [[logs res] s''] eqn:Hl. cbn.
      change res with ((logs, res, s'').1.2). rewrite <- Hl. apply IH; [|done|done].
      cbn in Hh. rewrite Hh. by rewrite pop_type_lookup_other.
Qed.

Lemma generate_saved_inv fs writable fig config output p deck :
  run_outcome (generate fs writable fig config output) = Saved p deck ->
  exists f h data logs s,
    fs config = Some f /\ json_load f = inr (h, data) /\ check_config h data = None /\
    gen_loop fs 0 (presentation_of h data) {| st_heap := h; st_slides := []; st_fig := fig |}
      = (logs, LoopDone, s) /\
    writable output = true /\ p = output /\ deck = st_slides s.
Proof.
  unfold generate. destruct (fs config) as [f|] eqn:Hf; [|discriminate].
  destruct (json_load f) as [[]|[h data]] eqn:Hj; try discriminate.
  destruct (check_config h data) eqn:Hc; [discriminate|].
  destruct (gen_loop fs 0 (presentation_of h data) _) as [[logs []] s] eqn:Hl; try discriminate.
  destruct (writable output) eqn:Hw; [|discriminate]. cbn. intros [= <- <-].
  exists f, h, data, logs, s. done.
Qed.

(** ** Presentations whose slides are all well formed *)

Lemma bind_kwargs_ok fname ps kw :
  forallb (fun k => existsb (String.eqb k) ps) (dict_keys kw) = true ->
  forallb (fun p => negb (existsb (String.eqb p) ["self"; "presentation"])) ps = true ->
  bind_kwargs fname ps kw = None.
Proof.
  intros H1 H2. induction kw as [|[k v] kw IH]; [done|]. cbn [bind_kwargs]. cbn [dict_keys map forallb fst] in H1.
  apply andb_prop in H1 as [Hk Hrest].
  destruct (existsb (String.eqb k) ["self"; "presentation"]) eqn:E.
  - exfalso. apply existsb_exists in Hk as (p & Hp & Hkp). apply String.eqb_eq in Hkp. subst p.
    rewrite forallb_forall in H2. specialize (H2 k Hp). by rewrite E in H2.
  - rewrite Hk. by apply IH.
Qed.

Lemma kwarg_str kw k :
  opt_str (dict_get k kw) = true -> exists t, kwarg kw k (PStr empty_str) = PStr t.
Proof. unfold kwarg. destruct (dict_get k kw) as [[]|]; cbn; try done; eauto. Qed.


Lemma list_entry_ok_inv h x :
  list_entry_ok h x = true ->
  exists r d t z, x = PRef r /\ h !! r = Some d /\ dict_get "text" d = Some (PStr t) /\
                  dict_get "level" d = Some (PInt z) /\ Z.leb 0 z && Z.leb z 8 = true.
Proof.
  unfold list_entry_ok. destruct x; try discriminate. destruct (h !! r) as [d|] eqn:Hr; [|discriminate].
  intros H. apply andb_prop in H as [H Ht]. apply andb_prop in H as [_ Hl].
  destruct (dict_get "level" d) as [[]|] eqn:El; try discriminate.
  destruct (dict_get "text" d) as [[]|] eqn:Et; try discriminate.
  eauto 10.
Qed.

Lemma list_entry_run l sl s x :
  st_slides s = l ++ [sl] -> list_entry_ok (st_heap s) x = true ->
  exists s' sl', list_entry (length l) x s = (s', inr tt) /\ st_slides s' = l ++ [sl'] /\
    st_heap s' = st_heap s /\ st_fig s' = st_fig s /\ sl_layout sl' = sl_layout sl.
Proof.
  intros Hs Hx. apply list_entry_ok_inv in Hx as (r & d & t & z & -> & Hr & Ht & Hl & Hz).
  unfold list_entry, subscript. mrun. rewrite Hs, alter_app_last. cbn. rewrite Hr. cbn. rewrite Ht.
  mrun. rewrite alter_app_last. cbn. rewrite Hr. cbn. rewrite Hl. mrun. rewrite Hz. mrun.
  rewrite alter_app_last.
  do 2 eexists. split; [reflexivity|]. cbn. auto.
Qed.

Lemma list_entries_run xs l sl s :
  st_slides s = l ++ [sl] -> forallb (list_entry_ok (st_heap s)) xs = true ->
  exists s' sl', list_entries (length l) xs s = (s', inr tt) /\ st_slides s' = l ++ [sl'] /\
    st_heap s' = st_heap s /\ st_fig s' = st_fig s /\ sl_layout sl' = sl_layout sl.
Proof.
  revert sl s. induction xs as [|x xs IH]; intros sl s Hs Hxs.
  - exists s, sl. auto.
  - cbn in Hxs. apply andb_prop in Hxs as [Hx Hxs].
    destruct (list_entry_run l sl s x Hs Hx) as (s1 & sl1 & E1 & Hs1 & Hh1 & Hf1 & Hl1).
    rewrite <- Hh1 in Hxs.
    destruct (IH sl1 s1 Hs1 Hxs) as (s2 & sl2 & E2 & Hs2 & Hh2 & Hf2 & Hl2).
    exists s2, sl2. cbn. unfold mbind at 1, M_bind at 1. rewrite E1, E2.
    repeat split; congruence.
Qed.

Lemma dict_get_in_keys k d v : dict_get k d = Some v -> existsb (String.eqb k) (dict_keys d) = true.
Proof.
  unfold dict_keys. induction d as [|[k' v'] d IH]; cbn [dict_get map existsb fst]; [discriminate|].
  destruct (String.eqb k k'); [done|]. exact IH.
Qed.

Lemma filter_nil_forallb {A} (P Q : A -> bool) l :
  forallb P l = true -> (forall a, P a = true -> Q a = false) -> List.filter Q l = [].
Proof.
  intros H HPQ. induction l as [|a l IH]; cbn in *; [done|].
  apply andb_prop in H as [Ha Hl]. rewrite (HPQ a Ha). by apply IH.
Qed.

Lemma check_entry_ok h x :
  list_entry_ok h x = true -> check_typed_dict h ListElements x = None.
Proof.
  intros H. pose proof (list_entry_ok_inv h x H) as (r & d & t & z & -> & Hr & Ht & Hl & _).
  unfold list_entry_ok in H. rewrite Hr in H.
  apply andb_prop in H as [H _]. apply andb_prop in H as [Hk _].
  unfold check_typed_dict. rewrite Hr.
  rewrite (filter_nil_forallb _ _ _ Hk).
  2:{ intros k Hk'. cbn. apply orb_true_iff in Hk' as [E|E]; rewrite E; cbn; [done|].
      by rewrite orb_true_r. }
  cbn [List.filter ListElements map fst]. rewrite (dict_get_in_keys _ _ _ Hl), (dict_get_in_keys _ _ _ Ht).
  cbn [negb List.filter]. rewrite Hl, Ht. reflexivity.
Qed.







Lemma dict_get_remove_ne k k' d : k <> k' -> dict_get k (dict_remove k' d) = dict_get k d.
Proof.
  intros Hne. induction d as [|[k0 v0] d IH]; cbn; [done|].
  destruct (String.eqb k' k0) eqn:E; cbn.
  - apply String.eqb_eq in E. subst k0. apply String.eqb_neq in Hne. by rewrite Hne.
  - by rewrite IH.
Qed.

Lemma keys_remove_sub k d k0 : In k0 (dict_keys (dict_remove k d)) -> In k0 (dict_keys d).
Proof.
  unfold dict_keys. induction d as [|[k1 v1] d IH]; cbn; [done|].
  destruct (String.eqb k k1); cbn; [auto|]. intros [H|H]; auto.
Qed.

Lemma heap_le_pop h r d : h !! r = Some d -> heap_le h (<[r := dict_remove "type" d]> h).
Proof.
  intros Hr r' d' Hr'. destruct (decide (r = r')) as [<-|Hne].
  - rewrite Hr in Hr'. injection Hr' as <-. exists (dict_remove "type" d).
    rewrite lookup_insert_eq. split; [done|]. split.
    + intros k Hk. by apply dict_get_remove_ne.
    + apply keys_remove_sub.
  - exists d'. rewrite lookup_insert_ne by done. auto.
Qed.

Lemma forallb_keys_sub (P : string -> bool) d d' :
  (forall k, In k (dict_keys d') -> In k (dict_keys d)) ->
  forallb P (dict_keys d) = true -> forallb P (dict_keys d') = true.
Proof.
  intros Hsub H. apply forallb_forall. intros k Hk. rewrite forallb_forall in H. auto.
Qed.

Lemma list_entry_ok_mono h h' x : heap_le h h' -> list_entry_ok h x = true -> list_entry_ok h' x = true.
Proof.
  intros Hle. unfold list_entry_ok. destruct x; try done.
  destruct (h !! r) as [d|] eqn:Hr; [|done]. destruct (Hle r d Hr) as (d' & -> & Hget & Hkeys).
  rewrite !Hget by done. intros H. apply andb_prop in H as [H Ht]. apply andb_prop in H as [Hk Hl].
  rewrite (forallb_keys_sub _ d d'), Hl, Ht; auto.
Qed.

Lemma is_dict_mono h h' v : heap_le h h' -> is_dict h v = true -> is_dict h' v = true.
Proof.
  intros Hle. unfold is_dict. destruct v; try done.
  destruct (h !! r) as [d|] eqn:Hr; [|done]. by destruct (Hle r d Hr) as (d' & -> & _).
Qed.




Lemma known_type_cases t :
  known_type t = true -> t = "title" \/ t = "text" \/ t = "list" \/ t = "picture" \/ t = "plot".
Proof.
  unfold known_type. cbn [existsb].
  destruct (String.eqb_spec t "title"); [tauto|].
  destruct (String.eqb_spec t "text"); [tauto|].
  destruct (String.eqb_spec t "list"); [tauto|].
  destruct (String.eqb_spec t "picture"); [tauto|].
  destruct (String.eqb_spec t "plot"); [tauto|].
  discriminate.
Qed.

Lemma from_dict_dispatch fs r s d t :
  st_heap s !! r = Some d -> dict_get "type" d = Some (PStr t) ->
  from_dict fs (PRef r) s =
    (if String.eqb t "title" then TitleSlide (dict_remove "type" d)
     else if String.eqb t "text" then TextSlide (dict_remove "type" d)
     else if String.eqb t "list" then ListSlide (dict_remove "type" d)
     else if String.eqb t "picture" then PictureSlide fs (dict_remove "type" d)
     else if String.eqb t "plot" then PlotSlide fs (dict_remove "type" d)
     else mthrow (ValueError (dq +:+ t +:+ dq +:+ " is not a valid slide type!")))
    (set_heap (<[r:=dict_remove "type" d]> (st_heap s)) s).
Proof.
  intros Hr Ht. unfold from_dict. unfold mbind at 1, M_bind at 1, gets. cbv beta iota.
  rewrite Hr. cbn [from_option id]. rewrite Ht.
  unfold mbind at 1, M_bind at 1, modify. cbv beta iota. reflexivity.
Qed.









(** ** Errors of a plot slide *)

Section PlotErr.
Variables (fs : string -> option file) (kw : pydict) (s : state) (t p : string) (c : pyval).
Hypothesis Hb : bind_kwargs "PlotSlide.__init__" ["title"; "content"; "configuration"] kw = None.
Hypothesis Ht : kwarg kw "title" (PStr empty_str) = PStr t.
Hypothesis Hp : kwarg kw "content" (PStr empty_str) = PStr p.
Hypothesis Hc : dict_get "configuration" kw = Some c.
Hypothesis Hd : is_dict (st_heap s) c = true.



End PlotErr.


Lemma has_key_pop h r d c k :
  h !! r = Some d -> k <> "type" -> has_key (<[r := dict_remove "type" d]> h) c k = has_key h c k.
Proof.
  intros Hr Hk. unfold has_key. destruct c as [| | | | |rc]; try done.
  destruct (decide (r = rc)) as [<-|Hne].
  - rewrite lookup_insert_eq, Hr. cbn. by rewrite dict_get_remove_ne.
  - by rewrite lookup_insert_ne.
Qed.



(** C10: [Slide.from_dict] mutates its argument.  [dict.pop("type")]
    removes the [type] key from the caller's dictionary (whatever happens
    next), so passing the same dictionary again fails with
    [KeyError('type')]; a dictionary without a [type] key fails with
    [KeyError('type')] before any slide is appended (the state, slides
    included, is left unchanged).  Python dicts have distinct keys. *)
Theorem from_dict_pops_type fs s r d :
  st_heap s !! r = Some d ->
  NoDup (dict_keys d) ->
  (dict_get "type" d = None ->
     from_dict fs (PRef r) s = (s, inl (KeyError "type"))) /\
  (forall ty, dict_get "type" d = Some ty ->
     st_heap (from_dict fs (PRef r) s).1 !! r = Some (dict_remove "type" d) /\
     from_dict fs (PRef r) (from_dict fs (PRef r) s).1
       = ((from_dict fs (PRef r) s).1, inl (KeyError "type"))).
Proof.
  intros Hr Hnd. split; [by apply from_dict_no_type|].
  intros ty Ht. assert (Hh : st_heap (from_dict fs (PRef r) s).1 !! r = Some (dict_remove "type" d)).
  { rewrite from_dict_heap. cbn. rewrite Hr, Ht. apply lookup_insert_eq. }
  split; [done|]. apply from_dict_no_type with (dict_remove "type" d); [done|].
  by apply dict_get_remove_nodup.
Qed.

Lemma from_dict_pops_type_witness :
  st_heap (from_dict (fun _ => None) (PRef 1) (Ex.state0 Ex.h_title)).1 !! 1
    = Some [("title", PStr "T")] /\
  from_dict (fun _ => None) (PRef 1) (from_dict (fun _ => None) (PRef 1) (Ex.state0 Ex.h_title)).1
    = ((from_dict (fun _ => None) (PRef 1) (Ex.state0 Ex.h_title)).1, inl (KeyError "type")).
Proof.
  apply (proj2 (from_dict_pops_type (fun _ => None) (Ex.state0 Ex.h_title) 1
                  [("type", PStr "title"); ("title", PStr "T")] eq_refl
                  ltac:(repeat constructor; cbn; set_solver)) (PStr "title") eq_refl).
Defined.

(** C3: a slide specification whose [type] is none of [title], [text],
    [list], [picture], [plot] makes [Slide.from_dict] raise a [ValueError]
    whose message names the type; the loop of [generate] logs it with the
    1-based slide number and returns, whatever specifications follow
    (they do not occur in the result); and a run whose configuration
    contains such a specification never saves the presentation. *)
Theorem unknown_type_aborts_run :
  (forall fs s r d ty i rest,
     st_heap s !! r = Some d -> dict_get "type" d = Some ty -> is_known_type ty = false ->
     from_dict fs (PRef r) s =
       (set_heap (<[r := dict_remove "type" d]> (st_heap s)) s,
        inl (ValueError (unknown_type_msg (st_heap s) ty))) /\
     gen_loop fs i (PRef r :: rest) s =
       ([(ERROR, "Slide number " +:+ nat_dec (S i) +:+ " is not in a valid format! "
                   +:+ unknown_type_msg (st_heap s) ty)],
        LoopAborted, set_heap (<[r := dict_remove "type" d]> (st_heap s)) s)) /\
  (forall fs writable fig config output h data pre r post d ty,
     fs config = Some (FJson h data) -> presentation_of h data = pre ++ PRef r :: post ->
     h !! r = Some d -> dict_get "type" d = Some ty -> is_known_type ty = false ->
     forall p deck, run_outcome (generate fs writable fig config output) <> Saved p deck).
Proof.
  split.
  - intros fs s r d ty i rest Hr Ht Hk. pose proof (from_dict_unknown fs s r d ty Hr Ht Hk) as Hf.
    split; [done|]. rewrite (gen_loop_error _ _ _ _ _ _ _ Hf). reflexivity.
  - intros fs writable fig config output h data pre r post d ty Hc Hp Hr Ht Hk p deck Hs.
    apply generate_saved_inv in Hs as (f & h' & data' & logs & s & Hf & Hj & _ & Hl & _).
    rewrite Hc in Hf. injection Hf as <-. cbn in Hj. injection Hj as <- <-.
    rewrite Hp in Hl. eapply (gen_loop_not_done_unknown fs pre r post d ty 0); [| | |rewrite Hl; reflexivity];
      done.
Qed.

Lemma unknown_type_aborts_run_witness :
  gen_loop Ex.fs_unknown 0 [PRef 1; PRef 2] (Ex.state0 Ex.h_unknown) =
    ([(ERROR, "Slide number 1 is not in a valid format! " +:+ dq +:+ "chart" +:+ dq
                +:+ " is not a valid slide type!")],
     LoopAborted, set_heap (<[1 := []]> Ex.h_unknown) (Ex.state0 Ex.h_unknown)) /\
  (forall p deck, run_outcome (generate Ex.fs_unknown (fun _ => true) empty_figure "config.json" "out.pptx")
                  <> Saved p deck).
Proof.
  split.
  - apply (proj1 unknown_type_aborts_run Ex.fs_unknown (Ex.state0 Ex.h_unknown) 1 [("type", PStr "chart")]
             (PStr "chart") 0 [PRef 2] eq_refl eq_refl eq_refl).
  - apply (proj2 unknown_type_aborts_run Ex.fs_unknown (fun _ => true) empty_figure "config.json" "out.pptx"
             Ex.h_unknown (PRef 0) [] 1 [PRef 2] [("type", PStr "chart")] (PStr "chart")
             eq_refl eq_refl eq_refl eq_refl eq_refl).
Defined.

(** C2 (defect): a slide field that the variant's [__init__] does not
    declare makes the call [TitleSlide(presentation, **dict)] raise a
    [TypeError]; [generate] catches only [TypeCheckError], [ValueError],
    [KeyError] and [OSError], so the [TypeError] escapes [generate]
    unlogged (a traceback), here for
    [{"presentation": [{"type": "title", "subtitle": "x"}]}]. *)
Theorem unexpected_field_escapes :
  generate Ex.fs_extra_field (fun _ => true) empty_figure "config.json" "out.pptx" =
  {| run_logs := [(INFO, "Configuration file loaded: " +:+ dq +:+ "config.json" +:+ dq)];
     run_outcome := Raised (TypeError "TitleSlide.__init__() got an unexpected keyword argument 'subtitle'");
     run_state := {| st_heap := <[1 := [("subtitle", PStr "x")]]> Ex.h_extra_field;
                     st_slides := []; st_fig := empty_figure |} |}.
Proof. vm_compute. reflexivity. Qed.

(** C4 (defect): typeguard checks only the first item of
    [presentation: list[dict]], so [{"presentation": [{"type": "title",
    "title": "T"}, 5]}] passes the format check, slide 1 is built, and
    [5.pop("type")] raises an [AttributeError] that escapes [generate]
    (nothing is saved). *)
Theorem second_item_not_checked :
  check_config Ex.h_second_not_object (PRef 0) = None /\
  generate Ex.fs_second_not_object (fun _ => true) empty_figure "config.json" "out.pptx" =
  {| run_logs := [(INFO, "Configuration file loaded: " +:+ dq +:+ "config.json" +:+ dq);
                  (INFO, "Slide number 1 generated")];
     run_outcome := Raised (AttributeError "'int' object has no attribute 'pop'");
     run_state := {| st_heap := <[1 := [("title", PStr "T")]]> Ex.h_second_not_object;
                     st_slides := [{| sl_layout := 0; sl_title := PStr "T";
                                      sl_shapes := [Placeholder 1 (FrameText (PStr empty_str))] |}];
                     st_fig := empty_figure |} |}.
Proof. split; vm_compute; reflexivity. Qed.

(** ** The command-line dispatcher *)

(** C7 (counterexample): [default_command] does not look at the
    docstring; [App.default] has none, is marked as the default command,
    and [App()] is built with it as the command for [''] — no
    missing-documentation error. *)
Lemma default_command_undocumented_accepted :
  Cli.m_doc (Cli.default_command (Cli.plain_method "default" None)) = None /\
  (exists hd, AppCli.App_class = inr hd /\
              In (Cli.default_command (Cli.plain_method "default" None)) (Cli.methods hd)) /\
  (exists c, AppCli.App = inr c /\ Cli.assoc empty_str (Cli.cli_cmds c) = Some "default").
Proof.
  split; [reflexivity|]. split.
  - eexists. split; [reflexivity|]. cbn. tauto.
  - eexists. split; [reflexivity|]. reflexivity.
Qed.

(** C7 (as the code has it): marking a method with [command] when it has
    no docstring raises [AttributeError] (the missing-documentation error);
    a documented method becomes a command.  [default_command] accepts any
    method, documented or not.  Building the dispatcher for a handler class
    without a docstring raises [AttributeError]. *)
Theorem command_requires_docstring :
  (forall f, Cli.m_doc f = None -> exists msg, Cli.command f = inl (AttributeError msg)) /\
  (forall f doc, Cli.m_doc f = Some doc ->
     exists g, Cli.command f = inr g /\ Cli.m_is_command g = true /\ Cli.m_doc g = Some doc) /\
  (forall f, Cli.m_is_command (Cli.default_command f) = true /\
             Cli.m_is_default_command (Cli.default_command f) = true /\
             Cli.m_doc (Cli.default_command f) = Cli.m_doc f) /\
  (forall hd, Cli.cls_doc hd = None -> exists msg, Cli.CommandlineInterface hd = inl (AttributeError msg)).
Proof.
  split; [|split; [|split]].
  - intros f Hf. unfold Cli.command. rewrite Hf. eexists. reflexivity.
  - intros f doc Hf. unfold Cli.command. rewrite Hf. eexists. done.
  - intros f. done.
  - intros hd Hd. unfold Cli.CommandlineInterface. rewrite Hd. eexists. reflexivity.
Qed.

Lemma command_requires_docstring_witness :
  (exists msg, Cli.command (Cli.plain_method "default" None) = inl (AttributeError msg)) /\
  (exists msg, Cli.CommandlineInterface {| Cli.cls_name := "App"; Cli.cls_doc := None;
                                           Cli.methods := [] |} = inl (AttributeError msg)).
Proof.
  split.
  - apply (proj1 command_requires_docstring (Cli.plain_method "default" None) eq_refl).
  - apply (proj2 (proj2 (proj2 command_requires_docstring))
             {| Cli.cls_name := "App"; Cli.cls_doc := None; Cli.methods := [] |} eq_refl).
Defined.

Lemma add_params_dests fl0 ps fl :
  Cli.add_params fl0 ps = inr fl -> map Cli.f_dest fl = map Cli.f_dest fl0 ++ map Cli.arg_name ps.
Proof.
  revert fl0. induction ps as [|a ps IH]; intros fl0 H; cbn in H.
  - injection H as <-. by rewrite app_nil_r.
  - destruct (Cli.flag_of_param a) as [e|f] eqn:Hf; [discriminate|].
    unfold Cli.add_argument in H.
    assert (Hd : Cli.f_dest f = Cli.arg_name a).
    { unfold Cli.flag_of_param in Hf.
      destruct (match Cli.arg_type_name a with Some t => String.eqb t "bool" | None => false end).
      - by injection Hf as <-.
      - destruct (Cli.module_getattr (Cli.arg_type_name a)); [discriminate|]. by injection Hf as <-. }
    destruct (Cli.f_action f) as [|[]];
      try discriminate;
      (destruct (existsb _ _); [discriminate|]);
      rewrite (IH _ H), map_app; cbn; rewrite Hd, <- app_assoc; reflexivity.
Qed.

Lemma plain_not_option w : plain_word w = true -> Cli.is_option_word w = false.
Proof.
  unfold plain_word, Cli.is_option_word. destruct w as [|a w']; [done|].
  destruct a as [[] [] [] [] [] [] [] []]; cbn; try done.
Qed.

(** C8 (counterexample): a command parameter documented with type [float]
    gets no flag: [getattr(sys.modules[__name__], 'float')] fails, since
    only [int], [str] and [bool] were imported into the module, and the
    dispatcher cannot be built. *)
Lemma float_parameter_rejected :
  Cli.CommandlineInterface Ex.float_handler
  = inl (AttributeError "module 'slidepy.cli' has no attribute 'float'").
Proof. vm_compute. reflexivity. Qed.

(** C8 (as the code has it): a parameter documented as [bool] becomes a
    presence flag ([store_true], default [False], not required); one
    documented as [int] or [str] becomes a value-taking flag converted by
    that type, required unless documented optional; a documented type name
    not bound in the namespace of [slidepy.cli] makes the dispatcher fail.
    Each documented parameter of a command yields one flag, in order.  The
    [generate] sub-command has the required flags [--config] and [--output]
    (both [str]), and [generate --output <path>], for a path that does
    not start with a hyphen, is rejected with the missing-required-argument
    error naming [--config]. *)
Theorem flags_from_docstrings :
  (forall a, Cli.arg_type_name a = Some "bool" ->
     Cli.flag_of_param a =
       inr {| Cli.f_option := "--" +:+ Cli.underscores_to_hyphens (Cli.arg_name a);
              Cli.f_dest := Cli.arg_name a; Cli.f_action := Cli.StoreTrue;
              Cli.f_required := false; Cli.f_default := PBool false;
              Cli.f_help := Cli.arg_description a |}) /\
  (forall a t, Cli.arg_type_name a = Some t -> t = "int" \/ t = "str" ->
     Cli.flag_of_param a =
       inr {| Cli.f_option := "--" +:+ Cli.underscores_to_hyphens (Cli.arg_name a);
              Cli.f_dest := Cli.arg_name a; Cli.f_action := Cli.Store (Cli.BType t);
              Cli.f_required := negb (Cli.arg_is_optional a); Cli.f_default := PNone;
              Cli.f_help := Cli.arg_description a |}) /\
  (forall a t, Cli.arg_type_name a = Some t -> t <> "bool" -> Cli.assoc t Cli.cli_globals = None ->
     exists msg, Cli.flag_of_param a = inl (AttributeError msg)) /\
  (forall ps fl, Cli.add_params [] ps = inr fl -> map Cli.f_dest fl = map Cli.arg_name ps) /\
  (exists c sp, AppCli.App = inr c /\ Cli.cli_subparsers c = [sp] /\ Cli.sp_cmd sp = "generate" /\
     map (fun f => (Cli.f_option f, Cli.f_required f, Cli.f_action f)) (Cli.sp_flags sp)
     = [("--config", true, Cli.Store (Cli.BType "str")); ("--output", true, Cli.Store (Cli.BType "str"))]) /\
  (forall c out, AppCli.App = inr c -> plain_word out = true ->
     Cli.parse_args c ["generate"; "--output"; out]
     = Cli.UsageError "the following arguments are required: --config").
Proof.
  split; [|split; [|split; [|split; [|split]]]].
  - intros a Ha. unfold Cli.flag_of_param. rewrite Ha. reflexivity.
  - intros a t Ha [-> | ->]; unfold Cli.flag_of_param; rewrite Ha; reflexivity.
  - intros a t Ha Hb Hn. unfold Cli.flag_of_param. rewrite Ha.
    apply String.eqb_neq in Hb. rewrite Hb.
    unfold Cli.module_getattr. rewrite Hn. eexists. reflexivity.
  - intros ps fl H. by apply add_params_dests in H.
  - do 2 eexists. split; [vm_compute; reflexivity|]. split; [reflexivity|]. split; reflexivity.
  - intros c out Hc Hout. apply plain_not_option in Hout. unfold AppCli.App in Hc. vm_compute in Hc. injection Hc as <-.
    unfold Cli.parse_args. cbn -[Cli.is_option_word Cli.consume].
    cbn [Cli.consume]. cbn -[Cli.is_option_word]. rewrite Hout. reflexivity.
Qed.

Lemma flags_from_docstrings_witness :
  (exists c, AppCli.App = inr c /\
     Cli.parse_args c ["generate"; "--output"; "o.pptx"]
     = Cli.UsageError "the following arguments are required: --config") /\
  (exists msg, Cli.flag_of_param {| Cli.arg_name := "factor"; Cli.arg_type_name := Some "float";
                                    Cli.arg_is_optional := false; Cli.arg_description := None |}
               = inl (AttributeError msg)) /\
  Cli.flag_of_param {| Cli.arg_name := "dry_run"; Cli.arg_type_name := Some "bool";
                       Cli.arg_is_optional := true; Cli.arg_description := None |}
  = inr {| Cli.f_option := "--dry-run"; Cli.f_dest := "dry_run"; Cli.f_action := Cli.StoreTrue;
           Cli.f_required := false; Cli.f_default := PBool false; Cli.f_help := None |} /\
  Cli.flag_of_param {| Cli.arg_name := "count"; Cli.arg_type_name := Some "int";
                       Cli.arg_is_optional := true; Cli.arg_description := None |}
  = inr {| Cli.f_option := "--count"; Cli.f_dest := "count"; Cli.f_action := Cli.Store (Cli.BType "int");
           Cli.f_required := false; Cli.f_default := PNone; Cli.f_help := None |} /\
  map Cli.f_dest [] = map Cli.arg_name (@nil Cli.param).
Proof.
  destruct flags_from_docstrings as (Hb & Hs & Hu & Hp & Happ & Hparse).
  split; [|split; [|split; [|split]]].
  - destruct Happ as (c & sp & Hc & _). exists c. split; [exact Hc|].
    apply (Hparse c "o.pptx"); [exact Hc | reflexivity].
  - apply (Hu _ "float"); [reflexivity | discriminate | reflexivity].
  - etransitivity; [apply (Hb _); reflexivity | reflexivity].
  - etransitivity; [apply (Hs _ "int"); [reflexivity | left; reflexivity] | reflexivity].
  - apply (Hp [] []). reflexivity.
Defined.





(** C5: [ListSlide.__init__] appends one paragraph per entry, in order, with
    the entry's text and level, and passes the level on unchecked; but it
    appends them with [tf.add_paragraph()] after the empty paragraph the body
    placeholder already has.  The two entries of the example give a body of
    three paragraphs: an empty one, then "a" at level 0, then "b" at level 1. *)
Theorem list_slide_keeps_leading_empty_paragraph :
  run_outcome (generate Ex.fs_list (fun _ => true) empty_figure "config.json" "out.pptx") =
  Saved "out.pptx"
    [{| sl_layout := 1; sl_title := PStr "L";
        sl_shapes := [Placeholder 1 (FrameParas
                        [empty_paragraph;
                         {| p_text := PStr "a"; p_level := PInt 0 |};
                         {| p_text := PStr "b"; p_level := PInt 1 |}])] |}].
Proof. vm_compute. reflexivity. Qed.




(* ------------------------------------------------------------------ *)
(** ** Further properties of the code *)

(** ** Counting the slides a computation appends *)

Lemma adds_ret {A} (a : A) : adds 0 (mret a).
Proof. intros s s' a' H. injection H as <- _. lia. Qed.

Lemma adds_throw {A} n (e : exn) : adds n (mthrow (A:=A) e).
Proof. intros s s' a H. discriminate H. Qed.

Lemma adds_bind {A B} n k j (m : M A) (f : A -> M B) :
  adds n m -> (forall a, adds k (f a)) -> (n + k)%nat = j -> adds j (m ≫= f).
Proof.
  intros Hm Hf Hj s s' b H. unfold mbind, M_bind in H.
  destruct (m s) as [s1 [e|a]] eqn:E; [discriminate|].
  rewrite (Hf a s1 s' b H), (Hm s s1 a E). lia.
Qed.

Lemma adds_gets {A} (f : state -> A) : adds 0 (gets f).
Proof. intros s s' a H. injection H as <- _. lia. Qed.

Lemma adds_alter_slide i f : adds 0 (alter_slide i f).
Proof. intros s s' a H. injection H as <- _. cbn. rewrite length_alter. lia. Qed.

Lemma adds_set_fig (g : state -> figure) : adds 0 (modify (fun s => set_fig (g s) s)).
Proof. intros s s' a H. injection H as <- _. cbn. lia. Qed.

Lemma adds_set_heap (g : state -> heap) : adds 0 (modify (fun s => set_heap (g s) s)).
Proof. intros s s' a H. injection H as <- _. cbn. lia. Qed.

Lemma adds_add_slide l : adds 1 (add_slide l).
Proof. intros s s' a H. injection H as <- _. cbn. rewrite length_app. cbn. lia. Qed.

Lemma adds_raise_first es : adds 0 (raise_first es).
Proof. unfold raise_first. destruct (omap id es); [apply adds_ret|apply adds_throw]. Qed.

Lemma adds_lift {A} (r : exn + A) : adds 0 (lift r).
Proof. destruct r; [apply adds_throw|apply adds_ret]. Qed.

Lemma adds_subscript v k : adds 0 (subscript v k).
Proof.
  destruct v; try apply adds_throw. unfold subscript.
  eapply adds_bind; [apply adds_gets| |reflexivity]. intros h.
  destruct (h !! r ≫= dict_get k); [apply adds_ret|apply adds_throw].
Qed.

Lemma adds_config_get c k : adds 0 (config_get c k).
Proof. destruct c; [apply adds_subscript|apply adds_throw]. Qed.

Lemma adds_set_paragraph_text i idx v : adds 0 (set_paragraph_text i idx v).
Proof. unfold set_paragraph_text, set_last_paragraph. destruct v; first [apply adds_alter_slide | apply adds_throw]. Qed.

Lemma adds_set_paragraph_level i idx v : adds 0 (set_paragraph_level i idx v).
Proof.
  unfold set_paragraph_level, set_last_paragraph. destruct v as [|[]|z| | |];
    try first [apply adds_alter_slide | apply adds_throw].
  destruct (Z.leb 0 z && Z.leb z 8); first [apply adds_alter_slide | apply adds_throw].
Qed.

Ltac adds_step :=
  lazymatch goal with
  | |- adds _ (set_paragraph_text _ _ _) => apply adds_set_paragraph_text
  | |- adds _ (set_paragraph_level _ _ _) => apply adds_set_paragraph_level
  | |- adds _ (mbind _ _) =>
      eapply adds_bind; [adds_step | let a := fresh "a" in intros a; cbv beta zeta; adds_step | reflexivity]
  | |- adds _ (add_slide _) => apply adds_add_slide
  | |- adds _ (bind_args _ _ _) => apply adds_raise_first
  | |- adds _ (set_title _ _) => apply adds_alter_slide
  | |- adds _ (add_shape _ _) => apply adds_alter_slide
  | |- adds _ (set_placeholder_text _ _ _) => apply adds_alter_slide
  | |- adds _ (add_paragraph _ _) => apply adds_alter_slide
  | |- adds _ (set_last_paragraph _ _ _) => apply adds_alter_slide
  | |- _ => first [apply adds_ret | apply adds_gets | apply adds_alter_slide | apply adds_set_fig
                  | apply adds_raise_first | apply adds_lift | apply adds_subscript | apply adds_config_get]
  end.

Lemma adds_list_entries i xs : adds 0 (list_entries i xs).
Proof.
  induction xs as [|x xs IH]; cbn; [apply adds_ret|].
  eapply adds_bind; [unfold list_entry; adds_step|intros; apply IH|reflexivity].
Qed.

Lemma adds_add_picture_file fs i p : adds 0 (add_picture_file fs i p).
Proof.
  unfold add_picture_file. destruct p; try apply adds_ret.
  destruct (fs s) as [[]|]; first [apply adds_throw | adds_step].
Qed.

Lemma adds_variant fs kw :
  adds 1 (TitleSlide kw) /\ adds 1 (TextSlide kw) /\ adds 1 (ListSlide kw)
  /\ adds 1 (PictureSlide fs kw) /\ adds 1 (PlotSlide fs kw).
Proof.
  split; [|split; [|split; [|split]]].
  - unfold TitleSlide. adds_step.
  - unfold TextSlide. adds_step.
  - unfold ListSlide. destruct (kwarg kw "content" (PList [])).
    all: try (adds_step; fail).
    eapply adds_bind; [adds_step|intros; cbv beta zeta|reflexivity].
    eapply adds_bind; [adds_step|intros; cbv beta zeta|reflexivity].
    eapply adds_bind; [adds_step|intros; cbv beta zeta|reflexivity].
    eapply adds_bind; [adds_step|intros; cbv beta zeta|reflexivity].
    eapply adds_bind; [adds_step|intros; cbv beta zeta|reflexivity]. apply adds_list_entries.
  - unfold PictureSlide. eapply adds_bind; [adds_step|intros; cbv beta zeta|reflexivity].
    eapply adds_bind; [adds_step|intros; cbv beta zeta|reflexivity].
    eapply adds_bind; [adds_step|intros; cbv beta zeta|reflexivity].
    eapply adds_bind; [adds_step|intros; cbv beta zeta|reflexivity]. apply adds_add_picture_file.
  - unfold PlotSlide. adds_step.
Qed.
Lemma from_dict_adds fs v : adds 1 (from_dict fs v).
Proof.
  unfold from_dict. destruct v; try apply adds_throw.
  eapply adds_bind; [apply adds_gets| |reflexivity]. intros h. cbv beta zeta.
  destruct (dict_get "type" _) as [ty|]; [|apply adds_throw].
  eapply adds_bind; [apply adds_set_heap| |reflexivity]. intros _.
  pose proof (adds_variant fs (dict_remove "type" (default [] (h !! r)))) as (H1 & H2 & H3 & H4 & H5).
  destruct ty; try apply adds_throw.
  repeat match goal with |- context [if String.eqb ?a ?b then _ else _] => destruct (String.eqb a b) end;
    first [assumption | apply adds_throw].
Qed.

(** The loop of [generate] when it runs to the end: one log line per item. *)
Lemma gen_loop_done fs i specs s logs s' :
  gen_loop fs i specs s = (logs, LoopDone, s') ->
  logs = map generated_msg (seq (S i) (length specs)) /\
  length (st_slides s') = (length (st_slides s) + length specs)%nat.
Proof.
  revert i s logs. induction specs as [|v specs IH]; intros i s logs H; cbn in H.
  - injection H as <- <-. cbn. split; [done|lia].
  - destruct (from_dict fs v s) as [s1 [e|u]] eqn:E.
    + destruct (slide_error_msg i e); discriminate.
    + destruct (gen_loop fs (S i) specs s1) as [[logs' e'] s''] eqn:E2. injection H as <- -> <-.
      destruct (IH _ _ _ E2) as [-> Hl]. split; [reflexivity|].
      rewrite Hl, (from_dict_adds fs v s s1 u E). cbn. lia.
Qed.

(** The loop of [generate] when it stops early: the items before the one
    that failed are logged, then at most one error. *)
Lemma gen_loop_stop fs i specs s logs e s' :
  gen_loop fs i specs s = (logs, e, s') -> e <> LoopDone ->
  exists k, k < length specs /\
    ((e = LoopAborted /\ exists m, logs = map generated_msg (seq (S i) k) ++ [(ERROR, m)]) \/
     (exists ex, e = LoopRaised ex /\ logs = map generated_msg (seq (S i) k))).
Proof.
  revert i s logs. induction specs as [|v specs IH]; intros i s logs H Hne; cbn in H.
  - injection H as <- <- <-. done.
  - destruct (from_dict fs v s) as [s1 [ex|u]] eqn:E.
    + exists 0%nat. split; [cbn; lia|].
      destruct (slide_error_msg i ex) as [m|]; injection H as <- <- <-.
      * left. split; [done|]. by exists m.
      * right. by exists ex.
    + destruct (gen_loop fs (S i) specs s1) as [[logs' e'] s''] eqn:E2. injection H as <- -> <-.
      destruct (IH _ _ _ E2 Hne) as (k & Hk & [[-> (m & ->)]|(ex & -> & ->)]).
      * exists (S k). split; [cbn; lia|]. left. split; [done|]. by exists m.
      * exists (S k). split; [cbn; lia|]. right. by exists ex.
Qed.

Lemma json_load_checked f h data :
  json_load f = inr (h, data) -> check_config h data = None -> f = FJson h data.
Proof.
  destruct f as [h0 r0|rows| |t]; cbn.
  - by intros [= -> ->].
  - destruct rows as [|[|[z|] []] []]; try discriminate. intros [= <- <-]. cbn. discriminate.
  - discriminate.
  - discriminate.
Qed.

(** X1: when [generate] ends by saving, the configuration file was a JSON file
    that passes the Config type check, the deck has one slide per
    presentation item and is saved to the output path, which is writable, and
    the log is exactly: the configuration-loaded line, one
    [Slide number k generated] line for each k from 1 to the number of items,
    then the presentation-saved line. *)
Theorem generate_saved_log fs writable fig config output p deck :
  run_outcome (generate fs writable fig config output) = Saved p deck ->
  exists h data, fs config = Some (FJson h data) /\ check_config h data = None /\
    p = output /\ writable output = true /\
    length deck = length (presentation_of h data) /\
    run_logs (generate fs writable fig config output) =
      (INFO, "Configuration file loaded: " +:+ dq +:+ config +:+ dq)
      :: map generated_msg (seq 1 (length (presentation_of h data)))
      ++ [(INFO, "Presentation saved: " +:+ dq +:+ output +:+ dq)].
Proof.
  intros H. pose proof H as H'.
  apply generate_saved_inv in H' as (f & h & data & logs & s & Hf & Hj & Hc & Hl & Hw & -> & ->).
  pose proof (json_load_checked f h data Hj Hc) as ->.
  destruct (gen_loop_done fs 0 _ _ _ _ Hl) as [Hlogs Hlen].
  exists h, data. do 4 (split; [done|]). split; [rewrite Hlen; cbn; lia|].
  unfold generate. rewrite Hf. cbn [json_load]. rewrite Hc, Hl, Hw. cbn [run_logs]. by rewrite Hlogs.
Qed.

(** X2: a run of [generate] that aborts logs either one error line alone
    or the configuration-loaded
    line, the generated lines of the first k items and then one error line; a
    run that ends in an uncaught exception logs nothing, or the
    configuration-loaded line followed by the generated lines of the first
    k items, k less than their number. *)
Theorem generate_failure_log fs writable fig config output :
  (run_outcome (generate fs writable fig config output) = Aborted ->
   (exists m, run_logs (generate fs writable fig config output) = [(ERROR, m)]) \/
   (exists h data k m, fs config = Some (FJson h data) /\ check_config h data = None /\
      k <= length (presentation_of h data) /\
      run_logs (generate fs writable fig config output) =
        (INFO, "Configuration file loaded: " +:+ dq +:+ config +:+ dq)
        :: map generated_msg (seq 1 k) ++ [(ERROR, m)])) /\
  (forall e, run_outcome (generate fs writable fig config output) = Raised e ->
   run_logs (generate fs writable fig config output) = [] \/
   (exists h data k, fs config = Some (FJson h data) /\ check_config h data = None /\
      k < length (presentation_of h data) /\
      run_logs (generate fs writable fig config output) =
        (INFO, "Configuration file loaded: " +:+ dq +:+ config +:+ dq) :: map generated_msg (seq 1 k))).
Proof.
  unfold generate.
  destruct (fs config) as [f|] eqn:Hf; [|split; [intros _; left; eexists; reflexivity|discriminate]].
  destruct (json_load f) as [[]|[h data]] eqn:Hj;
    try (split; [discriminate|intros; left; reflexivity]);
    [split; [intros _; left; eexists; reflexivity|discriminate]|].
  destruct (check_config h data) as [m|] eqn:Hc; [split; [intros _; left; eexists; reflexivity|discriminate]|].
  pose proof (json_load_checked f h data Hj Hc) as ->.
  destruct (gen_loop fs 0 (presentation_of h data) _) as [[logs e] s] eqn:Hl.
  destruct e as [| |ex].
  - destruct (gen_loop_done fs 0 _ _ _ _ Hl) as [Hlogs _].
    destruct (writable output); [split; discriminate|]. split; [|discriminate].
    intros _. right. exists h, data, (length (presentation_of h data)).
    eexists. split; [done|]. split; [done|]. split; [done|]. cbn [run_logs]. rewrite Hlogs. reflexivity.
  - destruct (gen_loop_stop fs 0 _ _ _ _ _ Hl ltac:(discriminate)) as (k & Hk & [[_ (m & Hm)]|(ex & ? & _)]);
      [|discriminate].
    split; [|discriminate]. intros _. right. exists h, data, k, m. cbn [run_logs]. rewrite Hm.
    repeat split; try done. lia.
  - destruct (gen_loop_stop fs 0 _ _ _ _ _ Hl ltac:(discriminate)) as (k & Hk & [[? _]|(ex' & [= <-] & Hm)]);
      [discriminate|].
    split; [discriminate|]. intros e _. right. exists h, data, k. cbn [run_logs]. rewrite Hm. done.
Qed.
Lemma in_keys_dict_get k d : In k (dict_keys d) -> exists v, dict_get k d = Some v.
Proof.
  unfold dict_keys. induction d as [|[k' v'] d IH]; cbn; [done|].
  intros H. destruct (String.eqb k k') eqn:E; [eauto|].
  destruct H as [Heq|H]; [|auto]. subst. rewrite String.eqb_refl in E. discriminate.
Qed.

Lemma filter_nil_iff {A} (Q : A -> bool) l : List.filter Q l = [] <-> Forall (fun a => Q a = false) l.
Proof.
  induction l as [|a l IH]; cbn; [split; auto|].
  destruct (Q a) eqn:E; split; intros H.
  - discriminate.
  - inversion H; congruence.
  - constructor; [done|]. by apply IH.
  - inversion H. by apply IH.
Qed.

(** X3: the Config type check accepts exactly a dictionary whose only key is
    [presentation], mapped to a list whose first item, if any, is a
    dictionary: the items after the first are not checked. *)
Theorem check_config_accepts h data :
  check_config h data = None <->
  exists r d xs, data = PRef r /\ h !! r = Some d /\
    Forall (fun k => k = "presentation") (dict_keys d) /\
    dict_get "presentation" d = Some (PList xs) /\
    match xs with [] => True | x :: _ => is_dict h x = true end.
Proof.
  unfold check_config, check_typed_dict. split.
  - destruct data as [| | | | |r]; try discriminate.
    destruct (h !! r) as [d|] eqn:Hr; [|discriminate]. cbv zeta.
    destruct (List.filter _ (dict_keys d)) as [|k ks] eqn:Hex; [|discriminate].
    cbn [map fst List.filter].
    destruct (existsb (String.eqb "presentation") (dict_keys d)) eqn:Hin; cbn [negb]; [|discriminate].
    destruct (dict_get "presentation" d) as [v|] eqn:Hv.
    2:{ apply existsb_exists in Hin as (k & Hk & Hkeq). apply String.eqb_eq in Hkeq. subst k.
        destruct (in_keys_dict_get _ _ Hk) as [v Hv']. congruence. }
    destruct v as [| | | |xs|]; cbn; try discriminate.
    intros Hok. exists r, d, xs. split; [done|]. split; [done|]. split.
    + apply filter_nil_iff in Hex. eapply Forall_impl; [exact Hex|]. intros k Hk. cbn in Hk.
      destruct (String.eqb k "presentation") eqn:E; [by apply String.eqb_eq|discriminate].
    + split; [done|]. destruct xs as [|x xs]; [done|]. cbn in Hok.
      destruct (is_dict h x); [done|discriminate].
  - intros (r & d & xs & -> & Hr & Hk & Hv & Hx). rewrite Hr. cbv zeta.
    assert (Hex : List.filter (fun k => negb (existsb (String.eqb k) ["presentation"])) (dict_keys d) = []).
    { apply filter_nil_iff. eapply Forall_impl; [exact Hk|]. intros k ->. reflexivity. }
    cbn [map fst]. rewrite Hex. cbn [List.filter].
    rewrite (dict_get_in_keys _ _ _ Hv). cbn [negb]. rewrite Hv.
    destruct xs as [|x xs]; cbn; [reflexivity|]. by rewrite Hx.
Qed.

(** X4: a configuration with an empty presentation list and a writable output
    path is loaded, saved as an empty deck, and logs the two lines loaded and
    saved; the heap, slides and figure are left as they were. *)
Theorem empty_presentation_saved fs writable fig config output h r :
  fs config = Some (FJson h (PRef r)) -> h !! r = Some [("presentation", PList [])] ->
  writable output = true ->
  generate fs writable fig config output =
    {| run_logs := [(INFO, "Configuration file loaded: " +:+ dq +:+ config +:+ dq);
                    (INFO, "Presentation saved: " +:+ dq +:+ output +:+ dq)];
       run_outcome := Saved output [];
       run_state := {| st_heap := h; st_slides := []; st_fig := fig |} |}.
Proof.
  intros Hf Hr Hw. unfold generate. rewrite Hf. cbn [json_load].
  assert (Hc : check_config h (PRef r) = None)
    by (unfold check_config, check_typed_dict; rewrite Hr; reflexivity).
  rewrite Hc. unfold presentation_of. rewrite Hr. cbn. rewrite Hw. reflexivity.
Qed.
Lemma kwarg_remove d k dflt : k <> "type" -> kwarg (dict_remove "type" d) k dflt = kwarg d k dflt.
Proof. intros Hk. unfold kwarg. by rewrite dict_get_remove_ne. Qed.

Lemma allowed_keys_ok t :
  forallb (fun p => negb (existsb (String.eqb p) ["self"; "presentation"])) (allowed_keys t) = true.
Proof. unfold allowed_keys. by destruct (String.eqb t "plot"). Qed.

Ltac bk Hb name :=
  let H := fresh in pose proof (Hb name) as H; cbn [allowed_keys String.eqb Ascii.eqb Bool.eqb] in H; rewrite H.

(** X6: for a slide of known type with only allowed fields, a title that is
    not a string (or, except for list slides, a content that is not a string
    when the title is fine) aborts the run with the typeguard message naming
    the argument and the value's qualified type name ([None] for a null
    value), and no slide is added. *)
Theorem slide_fields_type_checked fs i rest s r d t :
  st_heap s !! r = Some d -> dict_get "type" d = Some (PStr t) -> known_type t = true ->
  forallb (fun k => existsb (String.eqb k) (allowed_keys t)) (dict_keys (dict_remove "type" d)) = true ->
  (forall v, dict_get "title" d = Some v -> is_str v = false ->
     exists s', gen_loop fs i (PRef r :: rest) s =
       ([(ERROR, "Slide number " +:+ nat_dec (S i) +:+ " is not in a valid format! "
                 +:+ argument "title" +:+ " (" +:+ qualified_name v +:+ ") is not an instance of str")],
        LoopAborted, s') /\ st_slides s' = st_slides s) /\
  (t <> "list" -> opt_str (dict_get "title" d) = true ->
   forall v, dict_get "content" d = Some v -> is_str v = false ->
     exists s', gen_loop fs i (PRef r :: rest) s =
       ([(ERROR, "Slide number " +:+ nat_dec (S i) +:+ " is not in a valid format! "
                 +:+ argument "content" +:+ " (" +:+ qualified_name v +:+ ") is not an instance of str")],
        LoopAborted, s') /\ st_slides s' = st_slides s).
Proof.
  intros Hr Hty Hkn Hk.
  pose proof (from_dict_dispatch fs r s d t Hr Hty) as Hfd.
  set (s1 := set_heap (<[r:=dict_remove "type" d]> (st_heap s)) s) in Hfd.
  assert (Hs1 : st_slides s1 = st_slides s) by reflexivity. clearbody s1.
  set (kw := dict_remove "type" d) in *.
  assert (Hb : forall fname, bind_kwargs fname (allowed_keys t) kw = None)
    by (intros; apply bind_kwargs_ok; [exact Hk|apply allowed_keys_ok]).
  split.
  - intros v Hv Hs.
    assert (Hv' : kwarg kw "title" (PStr empty_str) = v)
      by (unfold kwarg, kw; rewrite dict_get_remove_ne by done; by rewrite Hv).
    assert (Hc : check_str "title" v =
              Some (TypeCheckError (argument "title" +:+ " (" +:+ qualified_name v +:+ ") is not an instance of str")))
      by (destruct v; try discriminate; reflexivity).
    assert (E : from_dict fs (PRef r) s =
              (s1, inl (TypeCheckError (argument "title" +:+ " (" +:+ qualified_name v +:+ ") is not an instance of str")))).
    { rewrite Hfd.
      destruct (known_type_cases t Hkn) as [->|[->|[->|[->| ->]]]]; cbn [String.eqb Ascii.eqb Bool.eqb].
      - unfold TitleSlide, bind_args. bk Hb "TitleSlide.__init__". rewrite Hv'. mrun. rewrite Hc. reflexivity.
      - unfold TextSlide, bind_args. bk Hb "TextSlide.__init__". rewrite Hv'. mrun. rewrite Hc. reflexivity.
      - unfold ListSlide, bind_args. bk Hb "ListSlide.__init__". rewrite Hv'. mrun. rewrite Hc. reflexivity.
      - unfold PictureSlide, bind_args. bk Hb "PictureSlide.__init__". rewrite Hv'. mrun. rewrite Hc. reflexivity.
      - unfold PlotSlide, bind_args. bk Hb "PlotSlide.__init__". rewrite Hv'. mrun. rewrite Hc. reflexivity. }
    exists s1. rewrite (gen_loop_error fs i _ rest s s1 _ E). split; [|exact Hs1].
    cbn. reflexivity.
  - intros Hnl Ht v Hv Hs.
    rewrite <- (dict_get_remove_ne "title" "type") in Ht by done. fold kw in Ht.
    apply kwarg_str in Ht as [tt Ht].
    assert (Hv' : kwarg kw "content" (PStr empty_str) = v)
      by (unfold kwarg, kw; rewrite dict_get_remove_ne by done; by rewrite Hv).
    assert (Hc : check_str "content" v =
              Some (TypeCheckError (argument "content" +:+ " (" +:+ qualified_name v +:+ ") is not an instance of str")))
      by (destruct v; try discriminate; reflexivity).
    assert (E : from_dict fs (PRef r) s =
              (s1, inl (TypeCheckError (argument "content" +:+ " (" +:+ qualified_name v +:+ ") is not an instance of str")))).
    { rewrite Hfd.
      destruct (known_type_cases t Hkn) as [->|[->|[->|[->| ->]]]]; cbn [String.eqb Ascii.eqb Bool.eqb].
      - unfold TitleSlide, bind_args. bk Hb "TitleSlide.__init__". rewrite Ht, Hv'. mrun. rewrite Hc. reflexivity.
      - unfold TextSlide, bind_args. bk Hb "TextSlide.__init__". rewrite Ht, Hv'. mrun. rewrite Hc. reflexivity.
      - done.
      - unfold PictureSlide, bind_args. bk Hb "PictureSlide.__init__". rewrite Ht, Hv'. mrun. rewrite Hc. reflexivity.
      - unfold PlotSlide, bind_args. bk Hb "PlotSlide.__init__". rewrite Ht, Hv'. mrun. rewrite Hc. reflexivity. }
    exists s1. rewrite (gen_loop_error fs i _ rest s s1 _ E). split; [|exact Hs1].
    cbn. reflexivity.
Qed.
Lemma list_entries_app i a b s s' :
  list_entries i a s = (s', inr tt) -> list_entries i (a ++ b) s = list_entries i b s'.
Proof.
  revert s. induction a as [|y a IH]; intros s H; cbn [list_entries app] in *.
  - unfold mret, M_ret in H. congruence.
  - unfold mbind, M_bind in *. destruct (list_entry i y s) as [s1 [e|[]]]; [discriminate|]. by apply IH.
Qed.

Lemma ListSlide_prefix kw s t pre x post :
  bind_kwargs "ListSlide.__init__" ["title"; "content"] kw = None ->
  kwarg kw "title" (PStr empty_str) = PStr t ->
  kwarg kw "content" (PList []) = PList (pre ++ x :: post) ->
  pre <> [] -> forallb (list_entry_ok (st_heap s)) pre = true ->
  exists s3 sl, ListSlide kw s = list_entries (length (st_slides s)) (x :: post) s3 /\
    st_heap s3 = st_heap s /\ st_slides s3 = st_slides s ++ [sl].
Proof.
  intros Hb Ht Hc Hpre Hok.
  assert (Hchk : check_list_elements (st_heap s) "content" (PList (pre ++ x :: post)) = None).
  { destruct pre as [|p0 pre']; [done|]. cbn in Hok. apply andb_prop in Hok as [Hp0 _].
    unfold check_list_elements, check_list_first. cbn [app]. by rewrite check_entry_ok. }
  assert (exists s1, ListSlide kw s = list_entries (length (st_slides s)) (pre ++ x :: post) s1 /\
            st_heap s1 = st_heap s /\ st_slides s1 = st_slides s ++ [with_title (PStr t) (new_slide 1)])
    as (s1 & E1 & Hh1 & Hs1).
  { unfold ListSlide, bind_args. rewrite Hb, Ht, Hc. mrun. rewrite Hchk. mrun.
    eexists. split; [reflexivity|]. split; [reflexivity|]. cbn. by rewrite alter_app_last. }
  rewrite <- Hh1 in Hok.
  destruct (list_entries_run pre (st_slides s) _ s1 Hs1 Hok) as (s2 & sl2 & E2 & Hs2 & Hh2 & _).
  exists s2, sl2. rewrite E1, (list_entries_app _ _ _ _ _ E2). split; [done|]. split; congruence.
Qed.

(** X8: in a list slide whose earlier entries are well formed (levels from
    0 to 8 included), a later entry
    that is a dictionary without [text] aborts the run with the missing
    property text, one with a string text and no [level] aborts it with the
    missing property level, and one that is not a dictionary raises an
    uncaught TypeError: only the first entry is type checked. *)
Theorem list_entry_errors fs i rest s r d t pre x post :
  st_heap s !! r = Some d -> dict_get "type" d = Some (PStr "list") ->
  forallb (fun k => existsb (String.eqb k) ["title"; "content"]) (dict_keys (dict_remove "type" d)) = true ->
  kwarg d "title" (PStr empty_str) = PStr t ->
  dict_get "content" d = Some (PList (pre ++ x :: post)) ->
  pre <> [] -> forallb (list_entry_ok (st_heap s)) pre = true ->
  (is_dict (st_heap s) x = true -> has_key (st_heap s) x "text" = false ->
     exists s', gen_loop fs i (PRef r :: rest) s =
       ([(ERROR, "Slide number " +:+ nat_dec (S i) +:+ " is missing a property! 'text'")], LoopAborted, s')) /\
  (forall rx dx tx, x = PRef rx -> st_heap s !! rx = Some dx ->
     dict_get "text" dx = Some (PStr tx) -> dict_get "level" dx = None ->
     exists s', gen_loop fs i (PRef r :: rest) s =
       ([(ERROR, "Slide number " +:+ nat_dec (S i) +:+ " is missing a property! 'level'")], LoopAborted, s')) /\
  ((forall rx, x <> PRef rx) ->
     exists m s', gen_loop fs i (PRef r :: rest) s = ([], LoopRaised (TypeError m), s')).
Proof.
  intros Hr Hty Hk Ht Hc Hpre Hok.
  rewrite <- (kwarg_remove d "title") in Ht by done.
  assert (Hc' : kwarg (dict_remove "type" d) "content" (PList []) = PList (pre ++ x :: post))
    by (unfold kwarg; rewrite dict_get_remove_ne by done; by rewrite Hc).
  pose proof (bind_kwargs_ok "ListSlide.__init__" _ _ Hk eq_refl) as Hb.
  pose proof (from_dict_dispatch fs r s d "list" Hr Hty) as Hfd.
  cbn [String.eqb Ascii.eqb Bool.eqb] in Hfd.
  set (s1 := set_heap (<[r:=dict_remove "type" d]> (st_heap s)) s) in Hfd.
  pose proof (heap_le_pop (st_heap s) r d Hr) as Hle.
  assert (Hok1 : forallb (list_entry_ok (st_heap s1)) pre = true).
  { apply forallb_forall. intros y Hy. eapply list_entry_ok_mono; [exact Hle|].
    exact (proj1 (forallb_forall _ _) Hok y Hy). }
  destruct (ListSlide_prefix _ s1 t pre x post Hb Ht Hc' Hpre Hok1) as (s3 & sl & E3 & Hh3 & _).
  rewrite E3 in Hfd. set (n := length (st_slides s1)) in Hfd. clearbody n.
  assert (Hkey : forall k, k <> "type" -> has_key (st_heap s3) x k = has_key (st_heap s) x k)
    by (intros k Hk'; rewrite Hh3; exact (has_key_pop _ _ _ x k Hr Hk')).
  split; [|split].
  - intros Hd Hx. rewrite <- Hkey in Hx by done.
    assert (Hd3 : is_dict (st_heap s3) x = true) by (rewrite Hh3; exact (is_dict_mono _ _ _ Hle Hd)).
    destruct x as [| | | | |rx]; try discriminate. unfold has_key in Hx. unfold is_dict in Hd3.
    destruct (st_heap s3 !! rx) as [dx|] eqn:Ex; [|discriminate]. cbn in Hx.
    destruct (dict_get "text" dx) eqn:Eg; [discriminate|].
    assert (exists s4, list_entries n (PRef rx :: post) s3 = (s4, inl (KeyError "text"))) as [s4 E4].
    { cbn [list_entries]. unfold list_entry, subscript. mrun. rewrite Ex. cbn. rewrite Eg. mrun. eauto. }
    rewrite E4 in Hfd. exists s4. rewrite (gen_loop_error fs i _ rest s s4 _ Hfd). reflexivity.
  - intros rx dx tx -> Hrx Htx Hlx.
    destruct (Hle rx dx Hrx) as (dx' & Hrx' & Hget & _).
    assert (Hrx3 : st_heap s3 !! rx = Some dx') by (rewrite Hh3; exact Hrx'). clear Hrx'. rename Hrx3 into Hrx'.
    assert (Eg : dict_get "text" dx' = Some (PStr tx)) by (rewrite Hget by done; exact Htx).
    assert (El : dict_get "level" dx' = None) by (rewrite Hget by done; exact Hlx).
    assert (exists s4, list_entries n (PRef rx :: post) s3 = (s4, inl (KeyError "level"))) as [s4 E4].
    { cbn [list_entries]. unfold list_entry, subscript. mrun. rewrite Hrx'. cbn. rewrite Eg. mrun.
      rewrite Hrx'. cbn. rewrite El. mrun. eauto. }
    rewrite E4 in Hfd. exists s4. rewrite (gen_loop_error fs i _ rest s s4 _ Hfd). reflexivity.
  - intros Hx.
    assert (exists m s4, list_entries n (x :: post) s3 = (s4, inl (TypeError m))) as (m & s4 & E4).
    { destruct x as [| | | | |rx]; [..|by destruct (Hx rx)];
        cbn [list_entries]; unfold list_entry, subscript; mrun; eauto. }
    rewrite E4 in Hfd. exists m, s4. rewrite (gen_loop_error fs i _ rest s s4 _ Hfd). reflexivity.
Qed.
(** X16: in a list slide whose earlier entries are well formed, a later
    entry with a string text and an integer level outside 0 to 8 aborts the
    run: python-pptx's level setter raises [ValueError], logged as a format
    error of the slide. *)
Theorem list_level_out_of_range fs i rest s r d t pre rx dx tx z post :
  st_heap s !! r = Some d -> dict_get "type" d = Some (PStr "list") ->
  forallb (fun k => existsb (String.eqb k) ["title"; "content"]) (dict_keys (dict_remove "type" d)) = true ->
  kwarg d "title" (PStr empty_str) = PStr t ->
  dict_get "content" d = Some (PList (pre ++ PRef rx :: post)) ->
  pre <> [] -> forallb (list_entry_ok (st_heap s)) pre = true ->
  st_heap s !! rx = Some dx -> dict_get "text" dx = Some (PStr tx) -> dict_get "level" dx = Some (PInt z) ->
  (z < 0 \/ 8 < z)%Z ->
  exists s', gen_loop fs i (PRef r :: rest) s =
    ([(ERROR, "Slide number " +:+ nat_dec (S i) +:+ " is not in a valid format! "
              +:+ "value must be in range 0 to 8 inclusive, got " +:+ Z_dec z)], LoopAborted, s').
Proof.
  intros Hr Hty Hk Ht Hc Hpre Hok Hrx Htx Hlx Hz.
  rewrite <- (kwarg_remove d "title") in Ht by done.
  assert (Hc' : kwarg (dict_remove "type" d) "content" (PList []) = PList (pre ++ PRef rx :: post))
    by (unfold kwarg; rewrite dict_get_remove_ne by done; by rewrite Hc).
  pose proof (bind_kwargs_ok "ListSlide.__init__" _ _ Hk eq_refl) as Hb.
  pose proof (from_dict_dispatch fs r s d "list" Hr Hty) as Hfd.
  cbn [String.eqb Ascii.eqb Bool.eqb] in Hfd.
  set (s1 := set_heap (<[r:=dict_remove "type" d]> (st_heap s)) s) in Hfd.
  pose proof (heap_le_pop (st_heap s) r d Hr) as Hle.
  assert (Hok1 : forallb (list_entry_ok (st_heap s1)) pre = true).
  { apply forallb_forall. intros y Hy. eapply list_entry_ok_mono; [exact Hle|].
    exact (proj1 (forallb_forall _ _) Hok y Hy). }
  destruct (ListSlide_prefix _ s1 t pre (PRef rx) post Hb Ht Hc' Hpre Hok1) as (s3 & sl & E3 & Hh3 & _).
  rewrite E3 in Hfd. set (n := length (st_slides s1)) in Hfd. clearbody n.
  destruct (Hle rx dx Hrx) as (dx' & Hrx' & Hget & _).
  assert (Hrx3 : st_heap s3 !! rx = Some dx') by (rewrite Hh3; exact Hrx').
  assert (Eg : dict_get "text" dx' = Some (PStr tx)) by (rewrite Hget by done; exact Htx).
  assert (El : dict_get "level" dx' = Some (PInt z)) by (rewrite Hget by done; exact Hlx).
  assert (Hz' : Z.leb 0 z && Z.leb z 8 = false)
    by (apply andb_false_iff; destruct Hz; [left|right]; apply Z.leb_gt; lia).
  assert (exists s4, list_entries n (PRef rx :: post) s3 =
            (s4, inl (ValueError ("value must be in range 0 to 8 inclusive, got " +:+ Z_dec z))))
    as [s4 E4].
  { cbn [list_entries]. unfold list_entry, subscript. mrun. rewrite Hrx3. cbn. rewrite Eg. mrun.
    rewrite Hrx3. cbn. rewrite El. mrun. rewrite Hz'. mrun. eauto. }
  rewrite E4 in Hfd. exists s4. rewrite (gen_loop_error fs i _ rest s s4 _ Hfd). reflexivity.
Qed.

Lemma rows_to_Z_width w rows zss :
  rows_to_Z w rows = inr zss -> Forall (fun zs => length zs = w) zss /\ length zss = length rows.
Proof.
  revert zss. induction rows as [|row rows IH]; intros zss H; cbn in H.
  - injection H as <-. auto.
  - destruct (cells_to_Z row) as [e|zs]; [discriminate|].
    destruct (Nat.eqb (length zs) w) eqn:Ew; [|discriminate]. apply Nat.eqb_eq in Ew.
    destruct (rows_to_Z w rows) as [e|zss']; [discriminate|]. injection H as <-.
    destruct (IH zss' eq_refl) as [Hf Hl]. split; [by constructor|]. cbn. by rewrite Hl.
Qed.

(** X10: a data file read into a two-dimensional array has at least two rows,
    all of the same width, which is at least two (a single row or column is
    squeezed to fewer dimensions). *)
Theorem table_to_array_2d rows zss :
  table_to_array rows = inr (A2 zss) ->
  2 <= length zss /\ exists w, 2 <= w /\ Forall (fun zs => length zs = w) zss.
Proof.
  unfold table_to_array. intros H.
  destruct (List.filter (fun r => negb (Nat.eqb (length r) 0)) rows) as [|r0 rows'] eqn:Ef; [discriminate|].
  assert (Hr0 : length r0 <> 0).
  { assert (Hin : In r0 (List.filter (fun r => negb (Nat.eqb (length r) 0)) rows)) by (rewrite Ef; left; done).
    apply filter_In in Hin as [_ Hn]. apply negb_true_iff, Nat.eqb_neq in Hn. exact Hn. }
  destruct (rows_to_Z (length r0) (r0 :: rows')) as [e|zss'] eqn:Ez; [discriminate|].
  destruct (rows_to_Z_width _ _ _ Ez) as [Hw Hlen]. cbn in Hlen.
  destruct zss' as [|zs1 [|zs2 zss'']]; [discriminate| |].
  - destruct zs1 as [|z [|]]; discriminate.
  - destruct (Nat.eqb (length r0) 1) eqn:E1;
      destruct zs1 as [|z [|]]; try discriminate; injection H as <-;
      apply Nat.eqb_neq in E1; (split; [cbn; lia|]); exists (length r0); (split; [lia|exact Hw]).
Qed.
Lemma plain_eqb_dash w s : plain_word w = true -> String.eqb w (String "-" s) = false.
Proof. intros H. apply String.eqb_neq. intros ->. discriminate H. Qed.

Lemma strip_dashdash s :
  exists r, Cli.strip_final_newline (String "-" (String "-" s)) = String "-" (String "-" r).
Proof.
  destruct s as [|c s']; [by exists EmptyString|].
  unfold Cli.strip_final_newline. cbn.
  lazymatch goal with |- context [match ?g with _ => _ end] => destruct g as [x|] end;
    [destruct (Ascii.eqb x _)|]; eexists; reflexivity.
Qed.

(** A word starting with two hyphens is never taken for a negative number. *)
Lemma option_word_dashdash s : Cli.is_option_word (String "-" (String "-" s)) = true.
Proof.
  unfold Cli.is_option_word, Cli.looks_negative_number. destruct (strip_dashdash s) as [r ->].
  reflexivity.
Qed.

Lemma option_word_dashdash_app s t : Cli.is_option_word (String "-" (String "-" s) +:+ t) = true.
Proof. exact (option_word_dashdash (s +:+ t)). Qed.

Lemma App_ok : AppCli.App = inr app_cli.
Proof. vm_compute. reflexivity. Qed.

Ltac app_eval :=
  unfold App_run; rewrite App_ok; unfold Cli.run, Cli.parse_args, app_cli;
  repeat (cbn -[Cli.is_option_word generate];
          match goal with
          | H : plain_word ?t = true |- context [Cli.is_option_word ?t] => rewrite (plain_not_option t H)
          | |- context [Cli.is_option_word (String "-" (String "-" ?t))] => rewrite (option_word_dashdash t)
          | |- context [Cli.is_option_word (String "-" (String "-" ?t) +:+ ?u)] =>
              rewrite (option_word_dashdash_app t u)
          | |- context [Cli.is_option_word ?t] =>
              let b := eval vm_compute in (Cli.is_option_word t) in
              match b with
              | true => change (Cli.is_option_word t) with true
              | false => change (Cli.is_option_word t) with false
              end
          end).

(** X11: the command line of the application: no arguments print the help,
    a leading -h or --help exits after the help, any other first word than
    generate is a usage error, and generate runs [App.generate] with the
    config and output values whichever order, equals form or unambiguous
    abbreviation is used, the last of repeated values winning; an extra
    word is reported as an unrecognized argument. *)
Theorem App_run_dispatch fs wr fig c c' o w rest :
  plain_word c = true -> plain_word c' = true -> plain_word o = true -> plain_word w = true ->
  App_run fs wr fig [] = AppPrintedHelp /\
  App_run fs wr fig ("-h" :: rest) = AppHelpExit /\
  App_run fs wr fig ("--help" :: rest) = AppHelpExit /\
  (w <> "generate" -> exists m, App_run fs wr fig (w :: rest) = AppUsage m) /\
  App_run fs wr fig ["generate"; "--config"; c; "--output"; o] = AppGenerate (generate fs wr fig c o) /\
  App_run fs wr fig ["generate"; "--output"; o; "--config"; c] = AppGenerate (generate fs wr fig c o) /\
  App_run fs wr fig ["generate"; "--config=" +:+ c; "--output=" +:+ o] = AppGenerate (generate fs wr fig c o) /\
  App_run fs wr fig ["generate"; "--c"; c; "--o"; o] = AppGenerate (generate fs wr fig c o) /\
  App_run fs wr fig ["generate"; "--config"; c'; "--config"; c; "--output"; o] =
    AppGenerate (generate fs wr fig c o) /\
  App_run fs wr fig ["generate"; "--config"; c; "--output"; o; w] = AppUsage ("unrecognized arguments: " +:+ w).
Proof.
  intros Hc Hc' Ho Hw.
  split; [reflexivity|]. split; [reflexivity|]. split; [reflexivity|].
  split; [|split; [|split; [|split; [|split; [|split]]]]].
  - intros Hne. unfold App_run; rewrite App_ok; unfold Cli.run, Cli.parse_args.
    rewrite !(plain_eqb_dash w), (plain_not_option w) by exact Hw.
    unfold app_cli. cbn -[String.eqb generate].
    apply String.eqb_neq in Hne. rewrite String.eqb_sym, Hne. eauto.
  - app_eval. reflexivity.
  - app_eval. reflexivity.
  - app_eval. reflexivity.
  - app_eval. reflexivity.
  - app_eval. reflexivity.
  - app_eval. reflexivity.
Qed.
Lemma assoc_set_same {A} k (v : A) l : Cli.assoc k (Cli.assoc_set k v l) = Some v.
Proof.
  induction l as [|[k' a] l IH]; cbn; [by rewrite String.eqb_refl|].
  destruct (String.eqb k k') eqn:E; cbn; [by rewrite String.eqb_refl|by rewrite E].
Qed.

Lemma assoc_set_other {A} k k' (v : A) l : k <> k' -> Cli.assoc k (Cli.assoc_set k' v l) = Cli.assoc k l.
Proof.
  intros Hne. apply String.eqb_neq in Hne.
  induction l as [|[k'' a] l IH]; cbn; [by rewrite Hne|].
  destruct (String.eqb k' k'') eqn:E; cbn.
  - apply String.eqb_eq in E as <-. by rewrite Hne.
  - destruct (String.eqb k k''); [done|exact IH].
Qed.

Lemma hyphens_nonempty n : n <> empty_str -> Cli.underscores_to_hyphens n <> empty_str.
Proof. destruct n; cbn; [done|discriminate]. Qed.

Lemma cli_scan hd c :
  Cli.CommandlineInterface hd = inr c ->
  exists help c0, Cli.scan_methods help (Cli.methods hd) c0 = inr c /\
    Cli.cli_subparsers c0 = [] /\ Cli.cli_cmds c0 = [].
Proof.
  unfold Cli.CommandlineInterface. destruct (Cli.cls_doc hd) as [doc|]; [|discriminate].
  destruct (Cli.short_description doc), (Cli.long_description doc); try discriminate.
  intros H. eauto.
Qed.

Lemma scan_app pre rest help c0 :
  (exists e, Cli.scan_methods help (pre ++ rest) c0 = inl e) \/
  (exists help' c1, Cli.scan_methods help (pre ++ rest) c0 = Cli.scan_methods help' rest c1).
Proof.
  revert help c0. induction pre as [|m pre IH]; intros help c0; [by right; eauto|].
  cbn [app Cli.scan_methods].
  destruct (negb (Cli.m_is_command m)); [apply IH|].
  destruct (Cli.m_is_default_command m); [apply IH|].
  destruct (Cli.add_params [] _); [by left; eauto|apply IH].
Qed.

Lemma scan_subparsers ms help c0 c :
  Cli.scan_methods help ms c0 = inr c -> exists ext, Cli.cli_subparsers c = Cli.cli_subparsers c0 ++ ext.
Proof.
  revert help c0. induction ms as [|m ms IH]; intros help c0 H; cbn in H.
  - injection H as <-. exists []. by rewrite app_nil_r.
  - destruct (negb (Cli.m_is_command m)); [by apply IH in H|].
    destruct (Cli.m_is_default_command m); [by apply IH in H|].
    destruct (Cli.add_params [] _); [discriminate|].
    apply IH in H as [ext ->]. cbn. eexists. rewrite <- app_assoc. reflexivity.
Qed.

Lemma scan_no_default ms help c0 c :
  Cli.scan_methods help ms c0 = inr c ->
  Forall (fun m => Cli.m_name m <> empty_str) ms ->
  Forall (fun m => Cli.m_is_default_command m = false) ms ->
  Cli.assoc empty_str (Cli.cli_cmds c) = Cli.assoc empty_str (Cli.cli_cmds c0).
Proof.
  revert help c0. induction ms as [|m ms IH]; intros help c0 H Hn Hd; cbn in H.
  - by injection H as <-.
  - inversion Hn as [|? ? Hn1 Hn2]; inversion Hd as [|? ? Hd1 Hd2]; subst.
    destruct (negb (Cli.m_is_command m)); [exact (IH _ _ H Hn2 Hd2)|].
    rewrite Hd1 in H. destruct (Cli.add_params [] _); [discriminate|].
    rewrite (IH _ _ H Hn2 Hd2). cbn. apply assoc_set_other.
    intros E. by apply (hyphens_nonempty (Cli.m_name m) Hn1).
Qed.

(** X12: running an interface with no arguments raises KeyError on the empty
    name when no method is a default command, and otherwise calls the last
    default command in method order with no arguments. *)
Theorem default_command_dispatch hd c :
  Cli.CommandlineInterface hd = inr c ->
  Forall (fun m => Cli.m_name m <> empty_str) (Cli.methods hd) ->
  (Forall (fun m => Cli.m_is_default_command m = false) (Cli.methods hd) ->
     Cli.run c [] = Cli.RunRaised (KeyError empty_str)) /\
  (forall pre m post, Cli.methods hd = pre ++ m :: post ->
     Cli.m_is_command m = true -> Cli.m_is_default_command m = true ->
     Forall (fun m' => Cli.m_is_default_command m' = false) post ->
     Cli.run c [] = Cli.RunCall (Cli.m_name m) []).
Proof.
  intros Hc Hn. destruct (cli_scan hd c Hc) as (help & c0 & Hs & _ & Hcmd).
  unfold Cli.run, Cli.parse_args. split.
  - intros Hd. by rewrite (scan_no_default _ _ _ _ Hs Hn Hd), Hcmd.
  - intros pre m post Hm Hcm Hdm Hpost. rewrite Hm in Hs, Hn.
    apply Forall_app in Hn as [_ Hn]. inversion Hn as [|? ? _ Hn2]; subst.
    destruct (scan_app pre (m :: post) help c0) as [[e He]|(help' & c1 & He)]; rewrite He in Hs;
      [discriminate|].
    cbn in Hs. rewrite Hcm, Hdm in Hs. cbn in Hs.
    rewrite (scan_no_default _ _ _ _ Hs Hn2 Hpost). cbn. by rewrite assoc_set_same.
Qed.

Lemma add_params_app fl xs ys :
  Cli.add_params fl (xs ++ ys) =
  match Cli.add_params fl xs with inl e => inl e | inr fl' => Cli.add_params fl' ys end.
Proof.
  revert fl. induction xs as [|a xs IH]; intros fl; [done|]. cbn.
  destruct (Cli.flag_of_param a); [done|]. destruct (Cli.add_argument fl f); [done|]. apply IH.
Qed.

Lemma flag_of_param_option a f :
  Cli.flag_of_param a = inr f -> Cli.f_option f = "--" +:+ Cli.underscores_to_hyphens (Cli.arg_name a).
Proof.
  unfold Cli.flag_of_param. destruct (match Cli.arg_type_name a with Some t => _ | None => false end).
  - by injection 1 as <-.
  - destruct (Cli.module_getattr _); [discriminate|]. by injection 1 as <-.
Qed.

Lemma add_argument_ok fl f fl' : Cli.add_argument fl f = inr fl' -> fl' = fl ++ [f].
Proof.
  unfold Cli.add_argument. destruct (Cli.f_action f) as [|[]];
    try destruct (existsb _ _); try discriminate; by injection 1 as <-.
Qed.

Lemma add_argument_taken fl f :
  existsb (String.eqb (Cli.f_option f)) ("--help" :: map Cli.f_option fl) = true ->
  exists e, Cli.add_argument fl f = inl e.
Proof. intros H. unfold Cli.add_argument. destruct (Cli.f_action f) as [|[]]; rewrite ?H; eauto. Qed.

Lemma add_params_mono fl ps fl' f : Cli.add_params fl ps = inr fl' -> In f fl -> In f fl'.
Proof.
  revert fl. induction ps as [|a ps IH]; intros fl H Hin; cbn in H.
  - by injection H as <-.
  - destruct (Cli.flag_of_param a) as [|g]; [discriminate|].
    destruct (Cli.add_argument fl g) as [|fl1] eqn:E; [discriminate|].
    apply add_argument_ok in E as ->. apply (IH _ H). apply in_or_app. by left.
Qed.

Lemma add_params_help fl ps a :
  In a ps -> Cli.arg_name a = "help" -> exists e, Cli.add_params fl ps = inl e.
Proof.
  intros Hin Hname. revert fl. induction ps as [|a0 ps IH]; intros fl; [done|].
  cbn. destruct (Cli.flag_of_param a0) as [e|f] eqn:Ef; [eauto|].
  destruct Hin as [<-|Hin].
  - destruct (add_argument_taken fl f) as [e He]; [|by rewrite He; eauto].
    rewrite (flag_of_param_option _ _ Ef), Hname. reflexivity.
  - destruct (Cli.add_argument fl f); [eauto|]. by apply IH.
Qed.

Lemma add_params_dup fl ps1 a ps2 b ps3 :
  Cli.arg_name a = Cli.arg_name b -> exists e, Cli.add_params fl (ps1 ++ a :: ps2 ++ b :: ps3) = inl e.
Proof.
  intros Hab. rewrite add_params_app. destruct (Cli.add_params fl ps1) as [e|fl1]; [eauto|].
  cbn [Cli.add_params]. destruct (Cli.flag_of_param a) as [e|f] eqn:Ea; [eauto|].
  destruct (Cli.add_argument fl1 f) as [e|fl2] eqn:Eaa; [eauto|].
  rewrite add_params_app. destruct (Cli.add_params fl2 ps2) as [e|fl3] eqn:E2; [eauto|].
  cbn [Cli.add_params]. destruct (Cli.flag_of_param b) as [e|g] eqn:Eb; [eauto|].
  destruct (add_argument_taken fl3 g) as [e He]; [|by rewrite He; eauto].
  apply add_argument_ok in Eaa as ->.
  assert (Hf : In f fl3) by (apply (add_params_mono _ _ _ _ E2), in_or_app; right; left; done).
  cbn [existsb]. apply orb_true_iff. right. apply existsb_exists. exists (Cli.f_option f).
  split; [by apply in_map|]. apply String.eqb_eq.
  by rewrite (flag_of_param_option _ _ Ea), (flag_of_param_option _ _ Eb), Hab.
Qed.

(** X13: building the interface fails when a command has a parameter named
    help, or two parameters with the same name, since their options
    conflict. *)
Theorem cli_option_conflicts hd pre m post :
  Cli.methods hd = pre ++ m :: post ->
  Cli.m_is_command m = true -> Cli.m_is_default_command m = false ->
  (exists a, In a (Cli.params (default Cli.no_doc (Cli.m_doc m))) /\ Cli.arg_name a = "help") \/
  (exists ps1 a ps2 b ps3, Cli.params (default Cli.no_doc (Cli.m_doc m)) = ps1 ++ a :: ps2 ++ b :: ps3 /\
     Cli.arg_name a = Cli.arg_name b) ->
  exists e, Cli.CommandlineInterface hd = inl e.
Proof.
  intros Hm Hc Hd Hp.
  assert (Hadd : exists e, Cli.add_params [] (Cli.params (default Cli.no_doc (Cli.m_doc m))) = inl e).
  { destruct Hp as [(a & Hin & Ha)|(ps1 & a & ps2 & b & ps3 & -> & Hab)].
    - exact (add_params_help _ _ _ Hin Ha).
    - exact (add_params_dup _ _ _ _ _ _ Hab). }
  destruct Hadd as [e He].
  unfold Cli.CommandlineInterface. destruct (Cli.cls_doc hd) as [doc|]; [|eauto].
  destruct (Cli.short_description doc), (Cli.long_description doc); eauto.
  rewrite Hm. match goal with |- context [Cli.scan_methods ?h _ ?c0] =>
    destruct (scan_app pre (m :: post) h c0) as [[e' He']|(help' & c1 & He')] end;
    rewrite He'; [eauto|].
  cbn. rewrite Hc, Hd. cbn. rewrite He. eauto.
Qed.

(** X14: a command without a short or long description takes the help text of
    the command registered just before it. *)
Theorem help_text_carries_over hd c pre m1 m2 post :
  Cli.CommandlineInterface hd = inr c ->
  Cli.methods hd = pre ++ m1 :: m2 :: post ->
  Cli.m_is_command m1 = true -> Cli.m_is_default_command m1 = false ->
  Cli.m_is_command m2 = true -> Cli.m_is_default_command m2 = false ->
  Cli.short_description (default Cli.no_doc (Cli.m_doc m2)) = None ->
  Cli.long_description (default Cli.no_doc (Cli.m_doc m2)) = None ->
  exists sps1 sp1 sp2 sps2,
    Cli.cli_subparsers c = sps1 ++ sp1 :: sp2 :: sps2 /\
    Cli.sp_cmd sp1 = Cli.underscores_to_hyphens (Cli.m_name m1) /\
    Cli.sp_cmd sp2 = Cli.underscores_to_hyphens (Cli.m_name m2) /\
    Cli.sp_description sp2 = Cli.sp_description sp1.
Proof.
  intros Hcl Hm Hc1 Hd1 Hc2 Hd2 Hs2 Hl2.
  destruct (cli_scan hd c Hcl) as (help & c0 & Hs & _). rewrite Hm in Hs.
  destruct (scan_app pre (m1 :: m2 :: post) help c0) as [[e He]|(help' & c1 & He)]; rewrite He in Hs;
    [discriminate|].
  cbn [Cli.scan_methods] in Hs. rewrite Hc1, Hd1 in Hs. cbn [negb] in Hs.
  destruct (Cli.add_params [] _) as [|fl1]; [discriminate|].
  rewrite Hc2, Hd2 in Hs. cbn [negb] in Hs. rewrite Hs2, Hl2 in Hs. cbn [default] in Hs.
  destruct (Cli.add_params [] _) as [|fl2]; [discriminate|].
  apply scan_subparsers in Hs as [ext Hext]. cbn in Hext.
  rewrite <- !app_assoc in Hext. cbn [app] in Hext.
  eexists (Cli.cli_subparsers c1), _, _, ext. split; [exact Hext|].
  split; [reflexivity|]. split; reflexivity.
Qed.
(** X15: a presentation item that is not a dictionary raises an uncaught
    TypeError or AttributeError and leaves the state unchanged; a dictionary
    without [type] aborts the run with the missing property type, before any
    slide is added. *)
Theorem spec_shape_errors fs i rest s :
  (forall v, (forall r, v <> PRef r) ->
     exists e, gen_loop fs i (v :: rest) s = ([], LoopRaised e, s) /\
       match e with TypeError _ | AttributeError _ => True | _ => False end) /\
  (forall r d, st_heap s !! r = Some d -> dict_get "type" d = None ->
     gen_loop fs i (PRef r :: rest) s =
       ([(ERROR, "Slide number " +:+ nat_dec (S i) +:+ " is missing a property! 'type'")], LoopAborted, s)).
Proof.
  split.
  - intros v Hv. destruct v as [| | | | |r]; [..|by destruct (Hv r)];
      (eexists; split; [reflexivity|exact I]).
  - intros r d Hr Ht. cbn [gen_loop]. unfold from_dict, gets, mbind, M_bind, mthrow, M_throw.
    rewrite Hr. cbn. rewrite Ht. reflexivity.
Qed.
Lemma generate_saved_log_witness :
  exists h data, Ex.fs_deck "config.json" = Some (FJson h data) /\
    run_logs (generate Ex.fs_deck (fun _ => true) empty_figure "config.json" "out.pptx") =
      (INFO, "Configuration file loaded: " +:+ dq +:+ "config.json" +:+ dq)
      :: map generated_msg (seq 1 (length (presentation_of h data)))
      ++ [(INFO, "Presentation saved: " +:+ dq +:+ "out.pptx" +:+ dq)].
Proof.
  destruct (generate_saved_log Ex.fs_deck (fun _ => true) empty_figure "config.json" "out.pptx" "out.pptx"
              (match run_outcome (generate Ex.fs_deck (fun _ => true) empty_figure "config.json" "out.pptx")
               with Saved _ deck => deck | _ => [] end))
    as (h & data & Hf & _ & _ & _ & _ & Hl); [vm_compute; reflexivity|].
  exists h, data. split; [exact Hf|exact Hl].
Defined.

Lemma empty_presentation_saved_witness :
  run_outcome (generate Ex.fs_empty (fun _ => true) empty_figure "config.json" "out.pptx")
  = Saved "out.pptx" [].
Proof.
  rewrite (empty_presentation_saved Ex.fs_empty (fun _ => true) empty_figure "config.json" "out.pptx"
             Ex.h_empty 0); [reflexivity|vm_compute; reflexivity..].
Defined.


Lemma slide_fields_type_checked_witness :
  exists s', gen_loop (fun _ => None) 0 [PRef 1] (Ex.state0 Ex.h_bad_title) =
    ([(ERROR, "Slide number " +:+ nat_dec 1 +:+ " is not in a valid format! "
              +:+ argument "title" +:+ " (" +:+ qualified_name (PInt 3) +:+ ") is not an instance of str")],
     LoopAborted, s').
Proof.
  destruct (proj1 (slide_fields_type_checked (fun _ => None) 0 [] (Ex.state0 Ex.h_bad_title) 1
                     [("type", PStr "text"); ("title", PInt 3)] "text"
                     ltac:(vm_compute; reflexivity) ltac:(vm_compute; reflexivity)
                     ltac:(vm_compute; reflexivity) ltac:(vm_compute; reflexivity))
                  (PInt 3) ltac:(vm_compute; reflexivity) ltac:(vm_compute; reflexivity))
    as (s' & E & _).
  exists s'. exact E.
Defined.


Lemma list_entry_errors_witness :
  exists s', gen_loop (fun _ => None) 0 [PRef 1] (Ex.state0 Ex.h_list_no_text) =
    ([(ERROR, "Slide number 1 is missing a property! 'text'")], LoopAborted, s').
Proof.
  apply (proj1 (list_entry_errors (fun _ => None) 0 [] (Ex.state0 Ex.h_list_no_text) 1
                  [("type", PStr "list"); ("title", PStr "L"); ("content", PList [PRef 2; PRef 3])]
                  "L" [PRef 2] (PRef 3) []
                  ltac:(vm_compute; reflexivity) ltac:(vm_compute; reflexivity)
                  ltac:(vm_compute; reflexivity) ltac:(vm_compute; reflexivity)
                  ltac:(vm_compute; reflexivity) ltac:(discriminate) ltac:(vm_compute; reflexivity)));
    vm_compute; reflexivity.
Defined.


Lemma table_to_array_2d_witness :
  2 <= length [[1; 2]; [3; 4]]%Z /\ exists w, 2 <= w /\ Forall (fun zs => length zs = w) [[1; 2]; [3; 4]]%Z.
Proof. exact (table_to_array_2d [[CNum 1; CNum 2]; [CNum 3; CNum 4]] [[1; 2]; [3; 4]]%Z eq_refl). Defined.

Lemma App_run_dispatch_witness :
  App_run (fun _ => None) (fun _ => true) empty_figure ["generate"; "--c"; "config.json"; "--o"; "out.pptx"]
  = AppGenerate (generate (fun _ => None) (fun _ => true) empty_figure "config.json" "out.pptx") /\
  App_run (fun _ => None) (fun _ => true) empty_figure ["generate"; "--config"; "old.json";
                                                        "--config"; "config.json"; "--output"; "out.pptx"]
  = AppGenerate (generate (fun _ => None) (fun _ => true) empty_figure "config.json" "out.pptx").
Proof.
  destruct (App_run_dispatch (fun _ => None) (fun _ => true) empty_figure "config.json" "old.json" "out.pptx"
              "gen" [] eq_refl eq_refl eq_refl eq_refl) as (_ & _ & _ & _ & _ & _ & _ & H1 & H2 & _).
  split; [exact H1|exact H2].
Defined.

Lemma default_command_dispatch_witness : Cli.run app_cli [] = Cli.RunCall "default" [].
Proof.
  apply (proj2 (default_command_dispatch Ex.app_handler app_cli
                  ltac:(vm_compute; reflexivity) ltac:(repeat constructor; cbn; discriminate))
           [Cli.plain_method "_configure_logger" None]
           (Cli.default_command (Cli.plain_method "default" None))
           [Ex.cmd "generate" (Some AppCli.generate_doc); Cli.plain_method "run" (Some AppCli.run_doc)]
           eq_refl eq_refl eq_refl ltac:(repeat constructor)).
Defined.

Lemma cli_option_conflicts_witness : exists e, Cli.CommandlineInterface Ex.help_handler = inl e.
Proof.
  apply (cli_option_conflicts Ex.help_handler [] (Ex.cmd "export" _) [] eq_refl eq_refl eq_refl).
  left. exists Ex.help_param. split; [left; reflexivity|reflexivity].
Defined.

Lemma help_text_carries_over_witness :
  exists sps1 sp1 sp2 sps2, Cli.cli_subparsers Ex.carry_cli = sps1 ++ sp1 :: sp2 :: sps2 /\
    Cli.sp_cmd sp1 = "build" /\ Cli.sp_cmd sp2 = "clean" /\ Cli.sp_description sp2 = Cli.sp_description sp1.
Proof.
  exact (help_text_carries_over Ex.carry_handler Ex.carry_cli [] (Ex.cmd "build" (Some AppCli.run_doc))
           (Ex.cmd "clean" (Some Cli.no_doc)) [] ltac:(vm_compute; reflexivity) eq_refl
           eq_refl eq_refl eq_refl eq_refl eq_refl eq_refl).
Defined.

Lemma list_level_out_of_range_witness :
  exists s', gen_loop (fun _ => None) 0 [PRef 1] (Ex.state0 Ex.h_list_deep) =
    ([(ERROR, "Slide number 1 is not in a valid format! value must be in range 0 to 8 inclusive, got 9")],
     LoopAborted, s').
Proof.
  apply (list_level_out_of_range (fun _ => None) 0 [] (Ex.state0 Ex.h_list_deep) 1
           [("type", PStr "list"); ("title", PStr "L"); ("content", PList [PRef 2; PRef 3])]
           "L" [PRef 2] 3 [("level", PInt 9); ("text", PStr "b")] "b" 9 []);
    first [vm_compute; reflexivity | discriminate | lia].
Defined.
